(** * routine-grid-api: the habits application

    A shallow embedding of [apps/habits/serializers.py] and
    [apps/habits/views.py], and the properties of the habit and
    habit-entry resources proved over it.

    Conventions of the embedding.
    - A Python [str] is a Rocq [string], one [ascii] per character (the
      code points below 256).
    - A user is identified by its primary key, an integer; Django compares
      model instances by primary key.
    - A timestamp is an integer (seconds), a calendar date is its proleptic
      ordinal (an integer), so that the database's date order is [Z]'s.
    - The two tables are lists of rows; a queryset is the list of rows it
      selects, in the order it yields them.
    - Raised exceptions are the [Raise] results of an error monad. *)

From stdpp Require Import base option list sorting strings gmap.
From Stdlib Require Import ZArith String Ascii List Permutation Sorted Lia.

Local Open Scope string_scope.
Local Open Scope Z_scope.

(** ** The error monad *)

Inductive exn : Type :=
| ValidationError (detail : string)
| FieldErrors (errors : list (string * string))
| Http404
| PermissionDenied
| LookupValueError (raw : string)
| AttributeError
| TypeError
| IntegrityError.

Inductive result (A : Type) : Type :=
| Ok (a : A)
| Raise (e : exn).
Arguments Ok {A} a.
Arguments Raise {A} e.

#[global] Instance result_ret : MRet result := fun _ a => Ok a.
#[global] Instance result_bind : MBind result := fun _ _ k r =>
  match r with
  | Ok a => k a
  | Raise e => Raise e
  end.

(** ** Python strings *)

Module Py.

(** [str.lower] on the characters below 256: the ASCII capitals and the
    Latin-1 capitals (all of 192..222 but the multiplication sign). *)
Definition lower_char (c : ascii) : ascii :=
  let n := nat_of_ascii c in
  if ((65 <=? n) && (n <=? 90))%nat then ascii_of_nat (n + 32)%nat
  else if ((192 <=? n) && (n <=? 222) && negb (n =? 215))%nat
       then ascii_of_nat (n + 32)%nat
  else c.

Fixpoint lower (s : string) : string :=
  match s with
  | EmptyString => EmptyString
  | String c s' => String (lower_char c) (lower s')
  end.

(** Truth value of a string: the empty string is false. *)
Definition truthy (s : string) : bool :=
  match s with
  | EmptyString => false
  | String _ _ => true
  end.

Definition len (s : string) : Z := Z.of_nat (String.length s).

(** [str.strip]: the white space of the characters below 256 is the
    controls 9..13 and 28..31, the space, and the characters 133 and
    160. *)
Definition isspace (c : ascii) : bool :=
  let n := nat_of_ascii c in
  (((9 <=? n) && (n <=? 13)) || ((28 <=? n) && (n <=? 32))
   || (n =? 133) || (n =? 160))%nat.

Fixpoint lstrip (s : string) : string :=
  match s with
  | EmptyString => EmptyString
  | String c s' => if isspace c then lstrip s' else s
  end.

Fixpoint rstrip (s : string) : string :=
  match s with
  | EmptyString => EmptyString
  | String c s' =>
      match rstrip s' with
      | EmptyString => if isspace c then EmptyString else String c EmptyString
      | r => String c r
      end
  end.

Definition strip (s : string) : string := rstrip (lstrip s).

End Py.

(** ** Query parameters

    [request.query_params] is a [QueryDict]: the pairs of the query string
    in order; [get] gives the last value of a key, or [None]. *)

Module QueryDict.

Definition t : Type := list (string * string).

Fixpoint get (q : t) (key : string) : option string :=
  match q with
  | [] => None
  | (k, v) :: q' =>
      match get q' key with
      | Some w => Some w
      | None => if String.eqb k key then Some v else None
      end
  end.

Definition without (key : string) (q : t) : t :=
  List.filter (fun kv => negb (String.eqb (fst kv) key)) q.

End QueryDict.

(** ** The rows of the two tables

    Modelled from the spec: [models.py] is not among the sources. The
    attributes are those the serializers list in [Meta.fields], typed as
    the data model describes them; the value of an entry is a number,
    here an integer, and the habit of an entry is its foreign key. *)

Inductive HabitType : Type := SINGULAR | TIMED.

Record Habit : Type := mkHabit {
  habit_id : Z;
  habit_user : Z;
  habit_name : string;
  habit_description : string;
  habit_type : HabitType;
  habit_created_at : Z;
  habit_updated_at : Z;
  habit_archived_at : option Z;
  habit_color : string;
  habit_goal_value : option Z;
  habit_goal_unit : string
}.

Record HabitEntry : Type := mkHabitEntry {
  entry_id : Z;
  entry_user : Z;
  entry_habit : Z;
  entry_date : Z;
  entry_value : Z;
  entry_notes : string;
  entry_created_at : Z;
  entry_updated_at : Z
}.

Record DB : Type := mkDB {
  habits : list Habit;
  entries : list HabitEntry
}.

Definition set_archived_at (a : option Z) (h : Habit) : Habit :=
  mkHabit (habit_id h) (habit_user h) (habit_name h) (habit_description h)
          (habit_type h) (habit_created_at h) (habit_updated_at h) a
          (habit_color h) (habit_goal_value h) (habit_goal_unit h).

(** ** Querysets *)

Module QuerySet.

(** [order_by]: the rows sorted by a key order, here by merge sort. *)
Definition order_by {A : Type} (le : A → A → bool) (q : list A) : list A :=
  merge_sort (fun x y => Is_true (le x y)) q.

Definition by_name (h1 h2 : Habit) : bool :=
  String.leb (habit_name h1) (habit_name h2).

Definition by_entry_date_desc (e1 e2 : HabitEntry) : bool :=
  entry_date e2 <=? entry_date e1.

Definition archived_at__isnull (b : bool) (h : Habit) : bool :=
  match habit_archived_at h with
  | None => b
  | Some _ => negb b
  end.

(** [queryset.get(pk=...)] for a single-object lookup, [None] for
    [DoesNotExist]. *)
Definition get_pk (pk : Z) (q : list Habit) : option Habit :=
  List.find (fun h => habit_id h =? pk) q.

End QuerySet.

Definition set_updated_at (t : Z) (h : Habit) : Habit :=
  mkHabit (habit_id h) (habit_user h) (habit_name h) (habit_description h)
          (habit_type h) (habit_created_at h) t (habit_archived_at h)
          (habit_color h) (habit_goal_value h) (habit_goal_unit h).

Definition set_entry_updated_at (t : Z) (e : HabitEntry) : HabitEntry :=
  mkHabitEntry (entry_id e) (entry_user e) (entry_habit e) (entry_date e)
               (entry_value e) (entry_notes e) (entry_created_at e) t.

(** The write of a save: the row with the instance's primary key is
    updated, and the instance is inserted when there is none. *)
Definition store_habit (h : Habit) (db : DB) : DB :=
  if List.existsb (fun r => habit_id r =? habit_id h) (habits db) then
    mkDB (List.map (fun r => if habit_id r =? habit_id h then h else r)
                   (habits db))
         (entries db)
  else mkDB (habits db ++ [h]) (entries db).

Definition store_entry (e : HabitEntry) (db : DB) : DB :=
  if List.existsb (fun r => entry_id r =? entry_id e) (entries db) then
    mkDB (habits db)
         (List.map (fun r => if entry_id r =? entry_id e then e else r)
                   (entries db))
  else mkDB (habits db) (entries db ++ [e]).

(** Modelled from the spec: [updated_at] is managed by the server, and a
    save sets it to the time of the save. [instance.save()] at the time
    [now]: the instance takes the new [updated_at] and is written. The
    result is the instance as saved and the database. *)
Definition save_habit (now : Z) (h : Habit) (db : DB) : Habit * DB :=
  let h := set_updated_at now h in (h, store_habit h db).

Definition save_entry (now : Z) (e : HabitEntry) (db : DB)
  : HabitEntry * DB :=
  let e := set_entry_updated_at now e in (e, store_entry e db).

(** The primary key the database gives to a new row. *)
Definition fresh_id (ids : list Z) : Z := 1 + List.fold_right Z.max 0 ids.

(** ** Serializer fields

    The values of a request body and of [validated_data]: what the
    framework's primitive fields hand over (numbers, strings, dates, the
    habit type), a habit instance once the relation is resolved, and the
    requesting user. A value of another kind than its field expects stands
    for input that the field rejects. *)

Inductive pyval : Type :=
| PNone
| PInt (z : Z)
| PStr (s : string)
| PDate (d : Z)
| PType (t : HabitType)
| PHabit (h : Habit)
| PUser (u : Z).

Record Field : Type := mkField {
  field_name : string;
  field_required : bool;
  (** the field's own conversion followed by the serializer's
      [validate_<field_name>], when it has one *)
  field_run_validation : pyval → result pyval
}.

Definition expect_int (v : pyval) : result pyval :=
  match v with
  | PInt _ => Ok v
  | _ => Raise (ValidationError "A valid integer is required.")
  end.

Definition expect_int_or_null (v : pyval) : result pyval :=
  match v with
  | PInt _ | PNone => Ok v
  | _ => Raise (ValidationError "A valid integer is required.")
  end.

(** A [CharField] that may be blank: the string is trimmed of
    surrounding white space. *)
Definition expect_str (v : pyval) : result pyval :=
  match v with
  | PStr s => Ok (PStr (Py.strip s))
  | _ => Raise (ValidationError "Not a valid string.")
  end.

Definition expect_date (v : pyval) : result pyval :=
  match v with
  | PDate _ => Ok v
  | _ => Raise (ValidationError "Date has wrong format.")
  end.

Definition expect_type (v : pyval) : result pyval :=
  match v with
  | PType _ => Ok v
  | _ => Raise (ValidationError "Not a valid choice.")
  end.

(** [Serializer.to_internal_value]: the writable fields in declaration
    order; the errors of all fields are collected, and a missing field is
    an error when it is required and the update is not partial. *)
Fixpoint run_fields (fields : list Field) (partial : bool)
    (data ret : gmap string pyval) (errors : list (string * string))
  : result (gmap string pyval * list (string * string)) :=
  match fields with
  | [] => Ok (ret, errors)
  | f :: fields' =>
      match data !! field_name f with
      | None =>
          run_fields fields' partial data ret
            (if field_required f && negb partial
             then errors ++ [(field_name f, "This field is required.")]
             else errors)
      | Some v =>
          match field_run_validation f v with
          | Ok v' =>
              run_fields fields' partial data (<[field_name f := v']> ret)
                         errors
          | Raise (ValidationError detail) =>
              run_fields fields' partial data ret
                         (errors ++ [(field_name f, detail)])
          | Raise e => Raise e
          end
      end
  end.

Definition to_internal_value (fields : list Field) (partial : bool)
    (data : gmap string pyval) : result (gmap string pyval) :=
  '(ret, errors) ← run_fields fields partial data ∅ [];
  match errors with
  | [] => Ok ret
  | _ :: _ => Raise (FieldErrors errors)
  end.

(** The names of the fields a client can write: [Meta.fields] without the
    read-only ones and without the automatic primary key. *)
Definition writable (fields read_only : list string) : list string :=
  List.filter (fun f => negb (bool_decide (f ∈ read_only))
                        && negb (String.eqb f "id")) fields.

(** ** serializers.py *)

Module HabitSerializer.

Definition Meta_fields : list string :=
  ["id"; "user"; "name"; "description"; "type"; "created_at";
   "updated_at"; "archived_at"; "color"; "goal_value"; "goal_unit"].

Definition Meta_read_only_fields : list string :=
  ["user"; "created_at"; "updated_at"].

Definition validate_name (value : string) : result string :=
  if negb (Py.truthy value) then
    Raise (ValidationError "Name is required.")
  else if Py.len value <? 3 then
    Raise (ValidationError "Name must be at least 3 characters long.")
  else Ok value.

(** The [CharField] of the name, before [validate_name] sees the value:
    a string that is empty, or empty once trimmed, is refused as blank;
    the value is trimmed of surrounding white space; the validators of
    the field run on the trimmed value. The validators come from the
    model's column (its maximal length) and from the framework, and are
    the parameter [name_validators]: [None] when the value passes, the
    message otherwise. *)
Definition name_field (name_validators : string → option string)
    (v : pyval) : result pyval :=
  match v with
  | PStr data =>
      if String.eqb data "" || String.eqb (Py.strip data) "" then
        Raise (ValidationError "This field may not be blank.")
      else
        let value := Py.strip data in
        match name_validators value with
        | Some message => Raise (ValidationError message)
        | None => value ← validate_name value; mret (PStr value)
        end
  | _ => Raise (ValidationError "Not a valid string.")
  end.

(** Modelled from the spec: [name] and [type] are required, the other
    attributes are optional. The field behind each writable name; the
    field [name] runs [validate_name]. *)
Definition field (name_validators : string → option string)
    (name : string) : Field :=
  if String.eqb name "name" then
    mkField name true (name_field name_validators)
  else if String.eqb name "type" then mkField name true expect_type
  else if String.eqb name "archived_at" then
    mkField name false expect_int_or_null
  else if String.eqb name "goal_value" then
    mkField name false expect_int_or_null
  else mkField name false expect_str.

Definition fields (name_validators : string → option string)
  : list Field :=
  List.map (field name_validators)
           (writable Meta_fields Meta_read_only_fields).

Definition run_validation (name_validators : string → option string)
    (partial : bool) (data : gmap string pyval)
  : result (gmap string pyval) :=
  to_internal_value (fields name_validators) partial data.

Definition get_str (d : string) (v : option pyval) : string :=
  match v with Some (PStr s) => s | _ => d end.

Definition get_opt_int (d : option Z) (v : option pyval) : option Z :=
  match v with Some (PInt z) => Some z | Some PNone => None | _ => d end.

(** Modelled from the spec: [archived_at] defaults to null, the optional
    attributes to empty, the id and the timestamps are set by the server.
    Otherwise [ModelSerializer.create]: [Habit.objects.create] with the
    items of [validated_data] as keyword arguments. *)
Definition create (now : Z) (db : DB) (validated_data : gmap string pyval)
  : result (Habit * DB) :=
  match validated_data !! "user", validated_data !! "name",
        validated_data !! "type" with
  | Some (PUser u), Some (PStr n), Some (PType t) =>
      let h := mkHabit (fresh_id (List.map habit_id (habits db))) u n
                 (get_str "" (validated_data !! "description")) t now now
                 (get_opt_int None (validated_data !! "archived_at"))
                 (get_str "" (validated_data !! "color"))
                 (get_opt_int None (validated_data !! "goal_value"))
                 (get_str "" (validated_data !! "goal_unit")) in
      Ok (h, mkDB (habits db ++ [h]) (entries db))
  | _, _, _ => Raise IntegrityError
  end.

(** [ModelSerializer.update]: every item of [validated_data] is set on
    the instance, which is then saved. *)
Definition update (now : Z) (db : DB) (instance : Habit)
    (validated_data : gmap string pyval) : result (Habit * DB) :=
  let h := mkHabit (habit_id instance)
             (match validated_data !! "user" with
              | Some (PUser u) => u
              | _ => habit_user instance
              end)
             (get_str (habit_name instance) (validated_data !! "name"))
             (get_str (habit_description instance)
                      (validated_data !! "description"))
             (match validated_data !! "type" with
              | Some (PType t) => t
              | _ => habit_type instance
              end)
             (habit_created_at instance) (habit_updated_at instance)
             (get_opt_int (habit_archived_at instance)
                          (validated_data !! "archived_at"))
             (get_str (habit_color instance) (validated_data !! "color"))
             (get_opt_int (habit_goal_value instance)
                          (validated_data !! "goal_value"))
             (get_str (habit_goal_unit instance)
                      (validated_data !! "goal_unit")) in
  Ok (save_habit now h db).

End HabitSerializer.

Module HabitEntrySerializer.

Definition Meta_fields : list string :=
  ["id"; "user"; "habit"; "habit_name"; "entry_date"; "value"; "notes";
   "created_at"; "updated_at"].

Definition Meta_read_only_fields : list string :=
  ["user"; "created_at"; "updated_at"; "habit_name"].

Definition validate_habit (request_user : Z) (habit_instance : Habit)
  : result Habit :=
  if negb (habit_user habit_instance =? request_user) then
    Raise (ValidationError
             "You can only create entries for your own habits.")
  else
    match habit_archived_at habit_instance with
    | Some _ =>
        Raise (ValidationError "Cannot create entries for archived habits.")
    | None => Ok habit_instance
    end.

(** [habit = PrimaryKeyRelatedField(queryset=Habit.objects.all())]: the
    primary key is looked up among all habits, then [validate_habit]
    runs on the instance found. *)
Definition habit_field (db : DB) (request_user : Z) : Field :=
  mkField "habit" true (fun v =>
    match v with
    | PInt pk =>
        match QuerySet.get_pk pk (habits db) with
        | Some habit_instance =>
            h ← validate_habit request_user habit_instance; mret (PHabit h)
        | None => Raise (ValidationError "Invalid pk - object does not exist.")
        end
    | _ => Raise (ValidationError "Incorrect type. Expected pk value.")
    end).

(** Modelled from the spec: [entry_date] and [value] are required,
    [notes] is optional. *)
Definition field (db : DB) (request_user : Z) (name : string) : Field :=
  if String.eqb name "habit" then habit_field db request_user
  else if String.eqb name "entry_date" then mkField name true expect_date
  else if String.eqb name "value" then mkField name true expect_int
  else mkField name false expect_str.

Definition fields (db : DB) (request_user : Z) : list Field :=
  List.map (field db request_user)
           (writable Meta_fields Meta_read_only_fields).

(** [getattr(self.instance, "habit", None)]: [None] without an instance,
    and when the related row is gone. *)
Definition getattr_habit (db : DB) (instance : option HabitEntry) : pyval :=
  match instance with
  | None => PNone
  | Some e =>
      match QuerySet.get_pk (entry_habit e) (habits db) with
      | Some h => PHabit h
      | None => PNone
      end
  end.

Definition getattr_value (instance : option HabitEntry) : pyval :=
  match instance with
  | None => PNone
  | Some e => PInt (entry_value e)
  end.

(** Python's truth value, [is None], [habit.type], [!= 1] and [<= 0]. *)
Definition truthy (v : pyval) : bool :=
  match v with
  | PNone => false
  | PInt z => negb (z =? 0)
  | PStr s => Py.truthy s
  | PDate _ | PType _ | PHabit _ | PUser _ => true
  end.

Definition is_None (v : pyval) : bool :=
  match v with PNone => true | _ => false end.

Definition dot_type (v : pyval) : result HabitType :=
  match v with
  | PHabit h => Ok (habit_type h)
  | _ => Raise AttributeError
  end.

Definition HabitType_eqb (a b : HabitType) : bool :=
  match a, b with
  | SINGULAR, SINGULAR | TIMED, TIMED => true
  | _, _ => false
  end.

Definition ne_1 (v : pyval) : bool :=
  match v with
  | PInt z => negb (z =? 1)
  | _ => true
  end.

Definition le_0 (v : pyval) : result bool :=
  match v with
  | PInt z => Ok (z <=? 0)
  | _ => Raise TypeError
  end.

Definition validate (db : DB) (instance : option HabitEntry)
    (attrs : gmap string pyval) : result (gmap string pyval) :=
  let habit := default (getattr_habit db instance) (attrs !! "habit") in
  let value := default (getattr_value instance) (attrs !! "value") in
  if truthy habit && negb (is_None value) then
    type ← dot_type habit;
    if HabitType_eqb type SINGULAR && ne_1 value then
      Raise (ValidationError "Singular habits can only have a value of 1.")
    else
      nonpositive ← (if HabitType_eqb type TIMED then le_0 value
                     else Ok false);
      match nonpositive with
      | true =>
          Raise (ValidationError "Timed habits must have a positive value.")
      | false => Ok attrs
      end
  else Ok attrs.

Definition run_validation (db : DB) (request_user : Z)
    (instance : option HabitEntry) (partial : bool)
    (data : gmap string pyval) : result (gmap string pyval) :=
  attrs ← to_internal_value (fields db request_user) partial data;
  validate db instance attrs.

(** Modelled from the spec: [notes] defaults to empty, the id and the
    timestamps are set by the server. Otherwise [ModelSerializer.create]:
    [HabitEntry.objects.create] with the items of [validated_data] as
    keyword arguments. *)
Definition super_create (now : Z) (db : DB)
    (validated_data : gmap string pyval) : result (HabitEntry * DB) :=
  match validated_data !! "user", validated_data !! "habit",
        validated_data !! "entry_date", validated_data !! "value" with
  | Some (PUser u), Some (PHabit h), Some (PDate d), Some (PInt v) =>
      let e := mkHabitEntry (fresh_id (List.map entry_id (entries db))) u
                 (habit_id h) d v
                 (HabitSerializer.get_str "" (validated_data !! "notes"))
                 now now in
      Ok (e, mkDB (habits db) (entries db ++ [e]))
  | _, _, _, _ => Raise IntegrityError
  end.

Definition create (now : Z) (db : DB) (request_user : Z)
    (validated_data : gmap string pyval) : result (HabitEntry * DB) :=
  let validated_data := <["user" := PUser request_user]> validated_data in
  super_create now db validated_data.

(** [ModelSerializer.update], which the class does not override. *)
Definition update (now : Z) (db : DB) (instance : HabitEntry)
    (validated_data : gmap string pyval) : result (HabitEntry * DB) :=
  let e := mkHabitEntry (entry_id instance)
             (match validated_data !! "user" with
              | Some (PUser u) => u
              | _ => entry_user instance
              end)
             (match validated_data !! "habit" with
              | Some (PHabit h) => habit_id h
              | _ => entry_habit instance
              end)
             (match validated_data !! "entry_date" with
              | Some (PDate d) => d
              | _ => entry_date instance
              end)
             (match validated_data !! "value" with
              | Some (PInt v) => v
              | _ => entry_value instance
              end)
             (HabitSerializer.get_str (entry_notes instance)
                                      (validated_data !! "notes"))
             (entry_created_at instance) (entry_updated_at instance) in
  Ok (save_entry now e db).

End HabitEntrySerializer.

(** ** views.py *)

Inductive action : Type :=
| ActList | ActCreate | ActRetrieve | ActUpdate | ActPartialUpdate
| ActDestroy | ActArchive | ActUnarchive.

Definition is_list (a : action) : bool :=
  match a with ActList => true | _ => false end.

Module IsOwner.
Definition has_object_permission (request_user obj_user : Z) : bool :=
  obj_user =? request_user.
End IsOwner.

Module HabitViewSet.

Definition get_queryset (db : DB) (user : Z) (act : action)
    (query_params : QueryDict.t) : list Habit :=
  let queryset := List.filter (fun h => habit_user h =? user) (habits db) in
  let queryset :=
    if is_list act then
      match QueryDict.get query_params "archived" with
      | Some is_archived_param =>
          if bool_decide (Py.lower is_archived_param ∈ ["true"; "1"]) then
            List.filter (QuerySet.archived_at__isnull false) queryset
          else if bool_decide (Py.lower is_archived_param ∈ ["false"; "0"])
          then List.filter (QuerySet.archived_at__isnull true) queryset
          else queryset
      | None => List.filter (QuerySet.archived_at__isnull true) queryset
      end
    else queryset in
  QuerySet.order_by QuerySet.by_name queryset.

(** [GenericAPIView.get_object]: the row of [get_queryset] with the
    primary key of the URL, [Http404] when there is none, then the
    object permission of [permission_classes]. *)
Definition get_object (db : DB) (user : Z) (act : action)
    (query_params : QueryDict.t) (pk : Z) : result Habit :=
  match QuerySet.get_pk pk (get_queryset db user act query_params) with
  | None => Raise Http404
  | Some obj =>
      if IsOwner.has_object_permission user (habit_user obj) then Ok obj
      else Raise PermissionDenied
  end.

(** [create] with [perform_create]: [serializer.save(user=request.user)]
    adds the user to the validated data. *)
Definition create (name_validators : string → option string) (now : Z)
    (db : DB) (user : Z) (data : gmap string pyval)
  : result (Habit * DB) :=
  validated_data ← HabitSerializer.run_validation name_validators false data;
  HabitSerializer.create now db (<["user" := PUser user]> validated_data).

(** [update] and [partial_update]. *)
Definition update (name_validators : string → option string) (now : Z)
    (db : DB) (user : Z) (partial : bool)
    (query_params : QueryDict.t) (pk : Z) (data : gmap string pyval)
  : result (Habit * DB) :=
  instance ← get_object db user
               (if partial then ActPartialUpdate else ActUpdate)
               query_params pk;
  validated_data ← HabitSerializer.run_validation name_validators partial
                     data;
  HabitSerializer.update now db instance validated_data.

(** The two actions answer with the serialized habit, here the instance
    itself as it was saved, and the database after the call. [now] is the
    time of the request: what [timezone.now()] gives, and the time of the
    save. *)
Definition archive (now : Z) (db : DB) (user : Z)
    (query_params : QueryDict.t) (pk : Z) : result (Habit * DB) :=
  habit ← get_object db user ActArchive query_params pk;
  match habit_archived_at habit with
  | None =>
      let habit := set_archived_at (Some now) habit in
      Ok (save_habit now habit db)
  | Some _ => Ok (habit, db)
  end.

Definition unarchive (now : Z) (db : DB) (user : Z)
    (query_params : QueryDict.t) (pk : Z) : result (Habit * DB) :=
  habit ← get_object db user ActUnarchive query_params pk;
  match habit_archived_at habit with
  | Some _ =>
      let habit := set_archived_at None habit in
      Ok (save_habit now habit db)
  | None => Ok (habit, db)
  end.

Section destroy.

(** [instance.delete()] removes the habit's row. What it does to the
    entries of the habit is the [on_delete] of the model's foreign key,
    which [models.py] decides: it may remove them, or refuse the deletion
    by raising. *)
Variable on_delete : Z → list HabitEntry → result (list HabitEntry).

Definition perform_destroy (instance : Habit) (db : DB) : result DB :=
  entries' ← on_delete (habit_id instance) (entries db);
  mret (mkDB (List.filter (fun r => negb (habit_id r =? habit_id instance))
                          (habits db))
             entries').

Definition destroy (db : DB) (user : Z) (query_params : QueryDict.t)
    (pk : Z) : result DB :=
  instance ← get_object db user ActDestroy query_params pk;
  perform_destroy instance db.

End destroy.

End HabitViewSet.

Module HabitEntryViewSet.

Section get_queryset.

(** Python's [int] on a string, [None] for [ValueError], and the
    conversion of a lookup value to a date by the model's [DateField],
    [None] for an ill-formed date. *)
Variable int : string → option Z.
Variable to_date : string → option Z.

Definition date_filter (keep : Z → Z → bool) (raw : option string)
    (queryset : list HabitEntry) : result (list HabitEntry) :=
  match raw with
  | Some s =>
      if Py.truthy s then
        match to_date s with
        | Some d => Ok (List.filter (fun e => keep (entry_date e) d) queryset)
        | None => Raise (LookupValueError s)
        end
      else Ok queryset
  | None => Ok queryset
  end.

Definition get_queryset (db : DB) (user : Z) (query_params : QueryDict.t)
  : result (list HabitEntry) :=
  let queryset := List.filter (fun e => entry_user e =? user) (entries db) in
  let habit_id := QueryDict.get query_params "habit_id" in
  let queryset :=
    match habit_id with
    | Some s =>
        if Py.truthy s then
          match int s with
          | Some n => List.filter (fun e => entry_habit e =? n) queryset
          | None => queryset
          end
        else queryset
    | None => queryset
    end in
  let start_date := QueryDict.get query_params "start_date" in
  let end_date := QueryDict.get query_params "end_date" in
  queryset ← date_filter Z.geb start_date queryset;
  queryset ← date_filter Z.leb end_date queryset;
  let specific_date := QueryDict.get query_params "date" in
  queryset ← date_filter Z.eqb specific_date queryset;
  Ok (QuerySet.order_by QuerySet.by_entry_date_desc queryset).

(** [GenericAPIView.get_object] for entries: [get_queryset] takes no
    account of the action, so the filters of the query string apply to
    the single-object operations too. *)
Definition get_object (db : DB) (user : Z) (query_params : QueryDict.t)
    (pk : Z) : result HabitEntry :=
  queryset ← get_queryset db user query_params;
  match List.find (fun e => entry_id e =? pk) queryset with
  | None => Raise Http404
  | Some obj =>
      if IsOwner.has_object_permission user (entry_user obj) then Ok obj
      else Raise PermissionDenied
  end.

(** [destroy], the class keeping the default [perform_destroy]:
    [instance.delete()] removes the entry's row. *)
Definition destroy (db : DB) (user : Z) (query_params : QueryDict.t)
    (pk : Z) : result DB :=
  instance ← get_object db user query_params pk;
  mret (mkDB (habits db)
             (List.filter (fun r => negb (entry_id r =? entry_id instance))
                          (entries db))).

End get_queryset.

(** [create] with [perform_create]: [serializer.save()] on valid data. *)
Definition create (now : Z) (db : DB) (user : Z) (data : gmap string pyval)
  : result (HabitEntry * DB) :=
  validated_data ← HabitEntrySerializer.run_validation db user None false
                     data;
  HabitEntrySerializer.create now db user validated_data.

(** [update] and [partial_update] on the entry the view has looked up. *)
Definition update (now : Z) (db : DB) (user : Z) (partial : bool)
    (instance : HabitEntry) (data : gmap string pyval)
  : result (HabitEntry * DB) :=
  validated_data ← HabitEntrySerializer.run_validation db user
                     (Some instance) partial data;
  HabitEntrySerializer.update now db instance validated_data.

End HabitEntryViewSet.

(** ASCII decimal numerals, for examples: an instance of [int] and of the
    date conversion (a date written as its ordinal). *)
Fixpoint digits (s : string) (acc : Z) : option Z :=
  match s with
  | EmptyString => Some acc
  | String c s' =>
      let n := Z.of_nat (nat_of_ascii c) in
      if (48 <=? n) && (n <=? 57) then digits s' (10 * acc + (n - 48))
      else None
  end.

Definition decimal (s : string) : option Z :=
  match s with
  | EmptyString => None
  | String _ _ => digits s 0
  end.

(** ** Notions used to state the properties *)

Definition own_habits (db : DB) (user : Z) : list Habit :=
  List.filter (fun h => habit_user h =? user) (habits db).

(** What a query parameter asks for: [Some v] when it is given, not
    empty, and reads as [v]; [None] when it is absent or empty. *)
Definition asks (parse : string → option Z) (raw : option string)
    (o : option Z) : Prop :=
  match o with
  | Some v => ∃ s, raw = Some s ∧ s ≠ "" ∧ parse s = Some v
  | None => raw = None ∨ raw = Some ""
  end.

(** The clause of an optional filter on a column. *)
Definition clause (keep : Z → Z → bool) (o : option Z) (x : Z) : bool :=
  match o with
  | Some v => keep x v
  | None => true
  end.

Definition selected (user : Z) (hid sd ed dd : option Z) (e : HabitEntry)
  : bool :=
  (entry_user e =? user)
  && clause Z.eqb hid (entry_habit e)
  && clause Z.geb sd (entry_date e)
  && clause Z.leb ed (entry_date e)
  && clause Z.eqb dd (entry_date e).

(** The field loop, field by field. *)
Definition field_errors (partial : bool) (data : gmap string pyval)
    (f : Field) : list (string * string) :=
  match data !! field_name f with
  | None =>
      if field_required f && negb partial
      then [(field_name f, "This field is required.")] else []
  | Some v =>
      match field_run_validation f v with
      | Raise (ValidationError detail) => [(field_name f, detail)]
      | _ => []
      end
  end.

Definition field_value (data ret : gmap string pyval) (f : Field)
  : gmap string pyval :=
  match data !! field_name f with
  | Some v =>
      match field_run_validation f v with
      | Ok v' => <[field_name f := v']> ret
      | Raise _ => ret
      end
  | None => ret
  end.

(** A field that fails only by a validation error. *)
Definition validation_only (f : Field) : Prop :=
  ∀ v e, field_run_validation f v = Raise e →
         ∃ detail, e = ValidationError detail.

(** A field the payload satisfies. *)
Definition accepted (partial : bool) (data : gmap string pyval)
    (f : Field) : Prop :=
  match data !! field_name f with
  | Some v => ∃ v', field_run_validation f v = Ok v'
  | None => field_required f && negb partial = false
  end.

(** The rule between a habit's type and an entry's value. *)
Definition value_rule (t : HabitType) (v : Z) : Prop :=
  match t with
  | SINGULAR => v = 1
  | TIMED => 0 < v
  end.

Definition value_rule_message (t : HabitType) : string :=
  match t with
  | SINGULAR => "Singular habits can only have a value of 1."
  | TIMED => "Timed habits must have a positive value."
  end.

Definition own_habits_message : string :=
  "You can only create entries for your own habits.".

Definition archived_message : string :=
  "Cannot create entries for archived habits.".

(** The payload of a habit write is in order but for its name: every other
    field that is given is valid, and [type] is there when required. *)
Definition rest_accepted (name_validators : string → option string)
    (partial : bool) (data : gmap string pyval) : Prop :=
  ∀ f, In f (HabitSerializer.fields name_validators) →
       field_name f ≠ "name" → accepted partial data f.

(** What a habit holds besides the two stamps that the server moves,
    [archived_at] and [updated_at]. *)
Definition habit_content (h : Habit)
  : Z * Z * string * string * HabitType * Z * string * option Z * string :=
  (habit_id h, habit_user h, habit_name h, habit_description h, habit_type h,
   habit_created_at h, habit_color h, habit_goal_value h, habit_goal_unit h).

(** The payload of an entry write, read field by field: the habit it
    names, if any, is found among all habits; the value, if any, is a
    number; the date and the notes are valid where given; and a full
    write gives the habit, the date and the value. *)
Record entry_payload (db : DB) (user : Z) (partial : bool)
    (data : gmap string pyval) (ph : option Habit) (pv : option Z) : Prop := {
  payload_habit :
    match ph with
    | Some h => ∃ pk, data !! "habit" = Some (PInt pk) ∧
                      QuerySet.get_pk pk (habits db) = Some h
    | None => data !! "habit" = None
    end;
  payload_value : data !! "value" = PInt <$> pv;
  payload_date : accepted partial data (mkField "entry_date" true expect_date);
  payload_notes : accepted partial data (mkField "notes" false expect_str);
  payload_full : partial = false → is_Some ph ∧ is_Some pv
}.

(** Two databases that differ at most in the habit rows of one id. *)
Definition habit_frame (pk : Z) (db db' : DB) : Prop :=
  entries db' = entries db ∧
  length (habits db') = length (habits db) ∧
  ∀ r, habit_id r ≠ pk → (In r (habits db') ↔ In r (habits db)).

(** ** Example data *)

Module Ex.
Definition run := mkHabit 1 7 "Run" "" SINGULAR 0 0 None "" None "".
Definition read := mkHabit 2 7 "Read" "" TIMED 0 0 (Some 5) "" None "".
Definition swim := mkHabit 3 8 "Swim" "" TIMED 0 0 None "" None "".
Definition e1 := mkHabitEntry 1 7 1 100 1 "" 0 0.
Definition e2 := mkHabitEntry 2 7 2 105 30 "" 0 0.
Definition e3 := mkHabitEntry 3 8 3 102 10 "" 0 0.
Definition e4 := mkHabitEntry 4 7 1 110 1 "" 0 0.
Definition db := mkDB [run; read; swim] [e1; e2; e3; e4].
Definition run_entry : gmap string pyval :=
  {[ "habit" := PInt 1; "entry_date" := PDate 120; "value" := PInt 1;
     "user" := PUser 8 ]}.

Definition swim_entry : gmap string pyval :=
  {[ "habit" := PInt 3; "entry_date" := PDate 120; "value" := PInt 0 ]}.

Definition short_habit : gmap string pyval :=
  {[ "name" := PStr "Ab"; "type" := PType SINGULAR ]}.

Definition walk_habit : gmap string pyval :=
  {[ "name" := PStr "Walk"; "type" := PType SINGULAR ]}.
End Ex.

(** * Properties *)

Lemma bind_Ok {A B : Type} (a : A) (k : A → result B) : Ok a ≫= k = k a.
Proof. reflexivity. Qed.

(** ** Querysets: ordering and lookup *)

Section queryset_facts.
Context {A : Type}.
Implicit Types (l : list A) (le : A → A → bool).

Lemma order_by_perm le l : Permutation (QuerySet.order_by le l) l.
Proof. apply merge_sort_Permutation. Qed.

Lemma in_order_by le l x : In x (QuerySet.order_by le l) ↔ In x l.
Proof.
  split; apply Permutation_in; [| symmetry]; apply order_by_perm.
Qed.

Lemma order_by_sorted le l :
  (∀ x y, le x y = true ∨ le y x = true) →
  Sorted (fun x y => le x y = true) (QuerySet.order_by le l).
Proof.
  intros Htot.
  assert (Total (fun x y => Is_true (le x y))) as HT.
  { intros x y. destruct (Htot x y) as [H | H]; rewrite H; simpl; auto. }
  pose proof (Sorted_merge_sort (fun x y => Is_true (le x y)) l) as HS.
  unfold QuerySet.order_by.
  induction HS as [| x l' HS IH Hd]; constructor; auto.
  destruct Hd as [| y l'' Hxy]; constructor.
  now apply Is_true_true.
Qed.

Lemma filter_filter (p q : A → bool) l :
  List.filter p (List.filter q l) = List.filter (fun x => q x && p x) l.
Proof.
  induction l as [| x l IH]; simpl; [reflexivity |].
  destruct (q x); simpl; [destruct (p x) |]; now rewrite IH.
Qed.

End queryset_facts.

Lemma find_pk_unique (l : list Habit) (h : Habit) :
  NoDup (List.map habit_id l) → In h l →
  QuerySet.get_pk (habit_id h) l = Some h.
Proof.
  unfold QuerySet.get_pk.
  induction l as [| x l IH]; simpl; intros Hnd Hin; [contradiction |].
  inversion Hnd as [| ? ? Hx Hl]; subst.
  destruct Hin as [-> | Hin].
  - now rewrite Z.eqb_refl.
  - destruct (Z.eqb_spec (habit_id x) (habit_id h)) as [Heq | _]; [| auto].
    exfalso. apply Hx. rewrite Heq. now apply in_map.
Qed.

Lemma get_pk_some (pk : Z) (l : list Habit) (h : Habit) :
  QuerySet.get_pk pk l = Some h → In h l ∧ habit_id h = pk.
Proof.
  intros H. apply find_some in H as [Hin Hpk]. split; [assumption | lia].
Qed.

Lemma get_pk_in (pk : Z) (l : list Habit) (h : Habit) :
  In h l → habit_id h = pk → ∃ h', QuerySet.get_pk pk l = Some h'.
Proof.
  intros Hin Hpk. unfold QuerySet.get_pk.
  destruct (List.find _ l) as [h' |] eqn:Hf; [eauto |].
  apply (find_none _ _ Hf) in Hin. lia.
Qed.

(** ** The habit list and single-object querysets *)

Lemma in_own_habits db user h :
  In h (own_habits db user) ↔ In h (habits db) ∧ habit_user h = user.
Proof.
  unfold own_habits. rewrite filter_In. rewrite Z.eqb_eq. reflexivity.
Qed.

Lemma isnull_true h :
  QuerySet.archived_at__isnull true h = true ↔ habit_archived_at h = None.
Proof.
  unfold QuerySet.archived_at__isnull.
  destruct (habit_archived_at h); simpl; split; congruence.
Qed.

Lemma isnull_false h :
  QuerySet.archived_at__isnull false h = true ↔ habit_archived_at h ≠ None.
Proof.
  unfold QuerySet.archived_at__isnull.
  destruct (habit_archived_at h); simpl; split; congruence.
Qed.

Lemma get_queryset_single db user act query_params :
  is_list act = false →
  HabitViewSet.get_queryset db user act query_params
  = QuerySet.order_by QuerySet.by_name (own_habits db user).
Proof. intros H. unfold HabitViewSet.get_queryset. now rewrite H. Qed.

Lemma archived_yes p :
  Py.lower p = "true" ∨ Py.lower p = "1" ↔
  bool_decide (Py.lower p ∈ ["true"; "1"]) = true.
Proof.
  rewrite bool_decide_eq_true, !elem_of_cons, elem_of_nil. tauto.
Qed.

Lemma archived_no p :
  Py.lower p = "false" ∨ Py.lower p = "0" ↔
  bool_decide (Py.lower p ∈ ["true"; "1"]) = false ∧
  bool_decide (Py.lower p ∈ ["false"; "0"]) = true.
Proof.
  rewrite bool_decide_eq_true, bool_decide_eq_false, !elem_of_cons, elem_of_nil.
  split.
  - intros [-> | ->]; split; auto; intros [? | [? | []]]; discriminate.
  - tauto.
Qed.

Lemma archived_other p :
  Py.lower p ∉ ["true"; "1"; "false"; "0"] ↔
  bool_decide (Py.lower p ∈ ["true"; "1"]) = false ∧
  bool_decide (Py.lower p ∈ ["false"; "0"]) = false.
Proof.
  rewrite !bool_decide_eq_false, !elem_of_cons, elem_of_nil. tauto.
Qed.

(** C1 (as amended): the habit list keeps the caller's active habits when
    [archived] is absent or is [false]/[0], the caller's archived habits
    when it is [true]/[1] (in any letter case), and for any other value it
    applies no archived-status filter: all the caller's habits are
    listed. *)
Theorem list_archived_param (db : DB) (user : Z) (query_params : QueryDict.t)
    (h : Habit) :
  let listed := In h (HabitViewSet.get_queryset db user ActList query_params) in
  let own := In h (habits db) ∧ habit_user h = user in
  (QueryDict.get query_params "archived" = None →
     (listed ↔ own ∧ habit_archived_at h = None)) ∧
  (∀ p, QueryDict.get query_params "archived" = Some p →
     Py.lower p = "true" ∨ Py.lower p = "1" →
     (listed ↔ own ∧ habit_archived_at h ≠ None)) ∧
  (∀ p, QueryDict.get query_params "archived" = Some p →
     Py.lower p = "false" ∨ Py.lower p = "0" →
     (listed ↔ own ∧ habit_archived_at h = None)) ∧
  (∀ p, QueryDict.get query_params "archived" = Some p →
     Py.lower p ∉ ["true"; "1"; "false"; "0"] →
     (listed ↔ own)).
Proof.
  intros listed own. subst listed own.
  unfold HabitViewSet.get_queryset. simpl is_list. cbv iota.
  fold (own_habits db user).
  split; [| split; [| split]].
  - intros ->.
    rewrite in_order_by, filter_In, in_own_habits, isnull_true. tauto.
  - intros p -> Hp. rewrite (proj1 (archived_yes p) Hp).
    rewrite in_order_by, filter_In, in_own_habits, isnull_false. tauto.
  - intros p -> Hp. destruct (proj1 (archived_no p) Hp) as [-> ->].
    rewrite in_order_by, filter_In, in_own_habits, isnull_true. tauto.
  - intros p -> Hp. destruct (proj1 (archived_other p) Hp) as [-> ->].
    rewrite in_order_by, in_own_habits. tauto.
Qed.

Lemma list_archived_param_witness :
  (In Ex.run (HabitViewSet.get_queryset Ex.db 7 ActList [])
   ↔ (In Ex.run (habits Ex.db) ∧ habit_user Ex.run = 7)
     ∧ habit_archived_at Ex.run = None) ∧
  (In Ex.read (HabitViewSet.get_queryset Ex.db 7 ActList [("archived", "True")])
   ↔ (In Ex.read (habits Ex.db) ∧ habit_user Ex.read = 7)
     ∧ habit_archived_at Ex.read ≠ None) ∧
  (In Ex.run (HabitViewSet.get_queryset Ex.db 7 ActList [("archived", "0")])
   ↔ (In Ex.run (habits Ex.db) ∧ habit_user Ex.run = 7)
     ∧ habit_archived_at Ex.run = None) ∧
  (In Ex.read (HabitViewSet.get_queryset Ex.db 7 ActList [("archived", "maybe")])
   ↔ In Ex.read (habits Ex.db) ∧ habit_user Ex.read = 7).
Proof.
  split; [| split; [| split]].
  - apply (list_archived_param Ex.db 7 [] Ex.run). reflexivity.
  - destruct (list_archived_param Ex.db 7 [("archived", "True")] Ex.read)
      as (_ & H & _ & _).
    apply (H "True"); [reflexivity | left; reflexivity].
  - destruct (list_archived_param Ex.db 7 [("archived", "0")] Ex.run)
      as (_ & _ & H & _).
    apply (H "0"); [reflexivity | right; reflexivity].
  - destruct (list_archived_param Ex.db 7 [("archived", "maybe")] Ex.read)
      as (_ & _ & _ & H).
    apply (H "maybe"); [reflexivity |].
    apply archived_other. split; reflexivity.
Defined.

(** C1 as stated fails: with [archived=maybe], a value that is none of
    [true], [1], [false], [0], the list holds an archived habit. *)
Lemma list_archived_param_other_value :
  QueryDict.get [("archived", "maybe")] "archived" = Some "maybe" ∧
  (Py.lower "maybe" ∉ ["true"; "1"; "false"; "0"]) ∧
  ¬ (∀ h, In h (HabitViewSet.get_queryset Ex.db 7 ActList
                  [("archived", "maybe")]) →
          habit_archived_at h = None).
Proof.
  split; [reflexivity | split].
  - apply archived_other. split; reflexivity.
  - intros H. specialize (H Ex.read). simpl in H.
    assert (Some 5 = None) by (apply H; left; reflexivity).
    discriminate.
Qed.

(** ** Single-object lookups *)

Lemma get_object_inv db user act query_params pk h :
  is_list act = false →
  HabitViewSet.get_object db user act query_params pk = Ok h →
  In h (habits db) ∧ habit_user h = user ∧ habit_id h = pk.
Proof.
  intros Hact. unfold HabitViewSet.get_object.
  rewrite get_queryset_single by assumption.
  destruct (QuerySet.get_pk pk _) as [obj |] eqn:Hget; [| discriminate].
  destruct (IsOwner.has_object_permission _ _); [| discriminate].
  intros [= ->]. apply get_pk_some in Hget as [Hin Hpk].
  apply in_order_by, in_own_habits in Hin. tauto.
Qed.

Lemma get_object_found db user act query_params h :
  is_list act = false →
  NoDup (List.map habit_id (habits db)) →
  In h (habits db) → habit_user h = user →
  HabitViewSet.get_object db user act query_params (habit_id h) = Ok h.
Proof.
  intros Hact Hnd Hin Huser. unfold HabitViewSet.get_object.
  rewrite get_queryset_single by assumption.
  rewrite find_pk_unique.
  - unfold IsOwner.has_object_permission. rewrite Huser, Z.eqb_refl.
    reflexivity.
  - eapply Permutation_NoDup.
    + apply Permutation_map. symmetry. apply order_by_perm.
    + unfold own_habits. clear Hin.
      induction (habits db) as [| x l IH]; simpl; [constructor |].
      inversion Hnd as [| ? ? Hx Hl]; subst.
      destruct (habit_user x =? habit_user h); [| auto].
      simpl. constructor; [| auto].
      intros Hc. apply Hx. apply in_map_iff in Hc as (y & Hy & Hc).
      apply filter_In in Hc as [Hc _]. apply in_map_iff. eauto.
  - apply in_order_by, in_own_habits. auto.
Qed.

Lemma get_object_any_single db user act act' query_params query_params' pk :
  is_list act = false → is_list act' = false →
  HabitViewSet.get_object db user act query_params pk
  = HabitViewSet.get_object db user act' query_params' pk.
Proof.
  intros H H'. unfold HabitViewSet.get_object.
  now rewrite !get_queryset_single by assumption.
Qed.

Lemma get_object_save db user act query_params pk h h' :
  is_list act = false →
  HabitViewSet.get_object db user act query_params pk = Ok h →
  habit_id h' = pk → habit_user h' = user →
  HabitViewSet.get_object (store_habit h' db) user act query_params pk = Ok h'.
Proof.
  intros Hact Hget Hid Huser.
  apply get_object_inv in Hget as (Hin & Hu & Hpk); [| assumption].
  assert (habits (store_habit h' db)
          = List.map (fun r => if habit_id r =? habit_id h' then h' else r)
                     (habits db)) as Hsave.
  { unfold store_habit.
    destruct (List.existsb _ (habits db)) eqn:Hex; [reflexivity |].
    exfalso. apply Bool.not_true_iff_false in Hex. apply Hex.
    apply existsb_exists. exists h. split; [assumption | lia]. }
  unfold HabitViewSet.get_object.
  rewrite get_queryset_single by assumption.
  destruct (get_pk_in pk
              (QuerySet.order_by QuerySet.by_name
                 (own_habits (store_habit h' db) user)) h') as [x Hx].
  { apply in_order_by, in_own_habits. split; [| assumption].
    rewrite Hsave. apply in_map_iff. exists h. split; [| assumption].
    replace (habit_id h =? habit_id h') with true by lia. reflexivity. }
  { assumption. }
  rewrite Hx. apply get_pk_some in Hx as [Hxin Hxid].
  apply in_order_by, in_own_habits in Hxin as [Hxin Hxu].
  rewrite Hsave in Hxin. apply in_map_iff in Hxin as (y & Hy & _).
  destruct (Z.eqb_spec (habit_id y) (habit_id h')) as [_ | Hne].
  - subst x. unfold IsOwner.has_object_permission.
    rewrite Huser, Z.eqb_refl. reflexivity.
  - subst x. congruence.
Qed.

Lemma set_archived_at_same h : set_archived_at (habit_archived_at h) h = h.
Proof. now destruct h. Qed.

Lemma set_archived_at_back a h :
  set_archived_at (habit_archived_at h) (set_archived_at a h) = h.
Proof. now destruct h. Qed.

(** C10: the archived filter belongs to the list operation alone. For
    every other action the candidate set is the caller's own habits,
    whatever the query string says, so a habit of the caller is found by
    its id whether it is archived or not. *)
Theorem single_object_queryset (db : DB) (user : Z) (act : action)
    (query_params : QueryDict.t) :
  is_list act = false →
  HabitViewSet.get_queryset db user act query_params
  = QuerySet.order_by QuerySet.by_name
      (List.filter (fun h => habit_user h =? user) (habits db)) ∧
  (∀ h, In h (HabitViewSet.get_queryset db user act query_params)
        ↔ In h (habits db) ∧ habit_user h = user) ∧
  (∀ h, NoDup (List.map habit_id (habits db)) →
        In h (habits db) → habit_user h = user →
        HabitViewSet.get_object db user act query_params (habit_id h) = Ok h).
Proof.
  intros Hact. split; [| split].
  - now apply get_queryset_single.
  - intros h. rewrite get_queryset_single by assumption.
    rewrite in_order_by. apply in_own_habits.
  - intros h. now apply get_object_found.
Qed.

Lemma single_object_queryset_witness :
  habit_archived_at Ex.read = Some 5 ∧
  HabitViewSet.get_object Ex.db 7 ActRetrieve [("archived", "false")]
    (habit_id Ex.read) = Ok Ex.read.
Proof.
  split; [reflexivity |].
  apply (single_object_queryset Ex.db 7 ActRetrieve [("archived", "false")]).
  - reflexivity.
  - simpl. repeat constructor; simpl; intuition discriminate.
  - simpl. auto.
  - reflexivity.
Defined.

(** ** Archive and unarchive *)

Lemma habit_content_stamped now a h :
  habit_content (set_updated_at now (set_archived_at a h)) = habit_content h.
Proof. reflexivity. Qed.

Lemma archive_active now db user query_params pk h :
  HabitViewSet.get_object db user ActArchive query_params pk = Ok h →
  habit_archived_at h = None →
  HabitViewSet.archive now db user query_params pk
  = Ok (set_updated_at now (set_archived_at (Some now) h),
        store_habit (set_updated_at now (set_archived_at (Some now) h)) db).
Proof.
  intros Hget Hnone. unfold HabitViewSet.archive.
  rewrite Hget. simpl. now rewrite Hnone.
Qed.

Lemma archive_archived now db user query_params pk h t :
  HabitViewSet.get_object db user ActArchive query_params pk = Ok h →
  habit_archived_at h = Some t →
  HabitViewSet.archive now db user query_params pk = Ok (h, db).
Proof.
  intros Hget Hsome. unfold HabitViewSet.archive.
  rewrite Hget. simpl. now rewrite Hsome.
Qed.

Lemma unarchive_spec now db user query_params pk h :
  HabitViewSet.get_object db user ActArchive query_params pk = Ok h →
  ∃ h' db', HabitViewSet.unarchive now db user query_params pk
            = Ok (h', db') ∧
            habit_archived_at h' = None ∧
            habit_content h' = habit_content h ∧
            HabitViewSet.get_object db' user ActArchive query_params pk
            = Ok h' ∧
            (habit_archived_at h = None → h' = h ∧ db' = db).
Proof.
  intros Hget. unfold HabitViewSet.unarchive.
  rewrite (get_object_any_single db user ActUnarchive ActArchive
             query_params query_params pk) by reflexivity.
  rewrite Hget. simpl.
  destruct (habit_archived_at h) as [t |] eqn:Ha.
  - eexists _, _. split; [reflexivity |]. split; [reflexivity |].
    split; [reflexivity |]. split; [| discriminate].
    apply get_object_inv in Hget as Hinv; [| reflexivity].
    eapply get_object_save; eauto; simpl; tauto.
  - exists h, db. repeat split; auto.
Qed.

Lemma archive_spec now db user query_params pk h :
  HabitViewSet.get_object db user ActArchive query_params pk = Ok h →
  ∃ h' db', HabitViewSet.archive now db user query_params pk = Ok (h', db') ∧
            HabitViewSet.get_object db' user ActArchive query_params pk
            = Ok h' ∧
            habit_content h' = habit_content h ∧
            habit_archived_at h'
            = match habit_archived_at h with
              | None => Some now
              | Some t => Some t
              end.
Proof.
  intros Hget.
  destruct (habit_archived_at h) as [t |] eqn:Ha.
  - exists h, db. split; [eapply archive_archived; eauto |].
    repeat split; auto.
  - eexists _, _. split; [eapply archive_active; eauto |].
    split; [| split; reflexivity].
    apply get_object_inv in Hget as Hinv; [| reflexivity].
    eapply get_object_save; eauto; simpl; tauto.
Qed.

(** C5: on a habit the caller owns, archive sets a null [archived_at] to
    the current time and leaves a set one alone, so a second archive
    changes nothing; unarchive sets it to null, so archive then unarchive
    gives back a habit that is active and holds what it held; each action
    answers with the habit as it stands in the database after the call. *)
Theorem archive_unarchive (now : Z) (db : DB) (user : Z)
    (query_params : QueryDict.t) (pk : Z) (h : Habit) :
  HabitViewSet.get_object db user ActArchive query_params pk = Ok h →
  (habit_archived_at h = None →
     ∃ h1 db1, HabitViewSet.archive now db user query_params pk
               = Ok (h1, db1) ∧
               habit_archived_at h1 = Some now ∧
               habit_content h1 = habit_content h ∧
               HabitViewSet.get_object db1 user ActArchive query_params pk
               = Ok h1) ∧
  (∀ t, habit_archived_at h = Some t →
        HabitViewSet.archive now db user query_params pk = Ok (h, db)) ∧
  (∀ h1 db1 later,
     HabitViewSet.archive now db user query_params pk = Ok (h1, db1) →
     HabitViewSet.archive later db1 user query_params pk = Ok (h1, db1)) ∧
  (∃ h2 db2, HabitViewSet.unarchive now db user query_params pk
             = Ok (h2, db2) ∧
             habit_archived_at h2 = None ∧
             habit_content h2 = habit_content h ∧
             HabitViewSet.get_object db2 user ActArchive query_params pk
             = Ok h2 ∧
             (habit_archived_at h = None → h2 = h ∧ db2 = db)) ∧
  (∀ h1 db1 later,
     HabitViewSet.archive now db user query_params pk = Ok (h1, db1) →
     ∃ h2 db2, HabitViewSet.unarchive later db1 user query_params pk
               = Ok (h2, db2) ∧
               habit_archived_at h2 = None ∧
               habit_content h2 = habit_content h ∧
               HabitViewSet.get_object db2 user ActArchive query_params pk
               = Ok h2).
Proof.
  intros Hget.
  destruct (archive_spec now db user query_params pk h Hget)
    as (ha & dba & Harch & Hgeta & Hca & Haa).
  split; [| split; [| split; [| split]]].
  - intros Hnone. rewrite Hnone in Haa. exists ha, dba. auto.
  - intros t. now apply archive_archived.
  - intros h1 db1 later Heq. rewrite Harch in Heq.
    injection Heq as <- <-.
    assert (∃ t, habit_archived_at ha = Some t) as [t Ht].
    { rewrite Haa. destruct (habit_archived_at h); eauto. }
    eapply archive_archived; eauto.
  - apply unarchive_spec. assumption.
  - intros h1 db1 later Heq. rewrite Harch in Heq. injection Heq as <- <-.
    destruct (unarchive_spec later dba user query_params pk ha Hgeta)
      as (h2 & db2 & Hun & Ha2 & Hc2 & Hget2 & _).
    exists h2, db2. rewrite Hc2, Hca. auto.
Qed.

Lemma archive_unarchive_witness :
  ∃ h1 db1, HabitViewSet.archive 50 Ex.db 7 [] 1 = Ok (h1, db1) ∧
            habit_archived_at h1 = Some 50 ∧
            habit_content h1 = habit_content Ex.run ∧
            HabitViewSet.get_object db1 7 ActArchive [] 1 = Ok h1.
Proof.
  apply (archive_unarchive 50 Ex.db 7 [] 1 Ex.run); reflexivity.
Defined.

(** ** The entry list *)

Lemma QueryDict_get_without key key' q :
  QueryDict.get (QueryDict.without key q) key'
  = if String.eqb key key' then None else QueryDict.get q key'.
Proof.
  induction q as [| [k v] q IH]; simpl.
  - now destruct (String.eqb key key').
  - destruct (String.eqb_spec k key) as [-> | Hk]; simpl.
    + rewrite IH. destruct (String.eqb_spec key key') as [_ | Hne]; [reflexivity |].
      now destruct (QueryDict.get q key').
    + rewrite IH. destruct (String.eqb_spec key key') as [<- | Hne].
      * destruct (String.eqb_spec k key) as [? | _]; [contradiction |].
        now destruct (QueryDict.get q key).
      * reflexivity.
Qed.

Lemma filter_all {A : Type} (l : list A) : List.filter (fun _ => true) l = l.
Proof. induction l as [| x l IH]; simpl; congruence. Qed.

Section entry_list.

Variable int : string → option Z.
Variable to_date : string → option Z.

Lemma truthy_nonempty s : s ≠ "" → Py.truthy s = true.
Proof. destruct s; [congruence | reflexivity]. Qed.

Lemma date_filter_asks keep raw o queryset :
  asks to_date raw o →
  HabitEntryViewSet.date_filter to_date keep raw queryset
  = Ok (List.filter (fun e => clause keep o (entry_date e)) queryset).
Proof.
  unfold asks, HabitEntryViewSet.date_filter.
  destruct o as [v |]; simpl.
  - intros (s & -> & Hs & Hv). now rewrite truthy_nonempty, Hv.
  - intros [-> | ->]; simpl; now rewrite filter_all.
Qed.

Lemma get_queryset_asks db user query_params hid sd ed dd :
  asks int (QueryDict.get query_params "habit_id") hid →
  asks to_date (QueryDict.get query_params "start_date") sd →
  asks to_date (QueryDict.get query_params "end_date") ed →
  asks to_date (QueryDict.get query_params "date") dd →
  HabitEntryViewSet.get_queryset int to_date db user query_params
  = Ok (QuerySet.order_by QuerySet.by_entry_date_desc
          (List.filter (selected user hid sd ed dd) (entries db))).
Proof.
  intros Hh Hs He Hd. unfold HabitEntryViewSet.get_queryset.
  rewrite (date_filter_asks _ _ sd) by assumption. simpl.
  rewrite (date_filter_asks _ _ ed) by assumption. simpl.
  rewrite (date_filter_asks _ _ dd) by assumption. simpl.
  f_equal. f_equal.
  assert (match QueryDict.get query_params "habit_id" with
          | Some s =>
              if Py.truthy s then
                match int s with
                | Some n =>
                    List.filter (fun e => entry_habit e =? n)
                      (List.filter (fun e => entry_user e =? user) (entries db))
                | None => List.filter (fun e => entry_user e =? user) (entries db)
                end
              else List.filter (fun e => entry_user e =? user) (entries db)
          | None => List.filter (fun e => entry_user e =? user) (entries db)
          end
          = List.filter (fun e => clause Z.eqb hid (entry_habit e))
              (List.filter (fun e => entry_user e =? user) (entries db)))
    as ->.
  { destruct hid as [n |]; simpl in Hh |- *.
    - destruct Hh as (s & -> & Hs' & Hn). now rewrite truthy_nonempty, Hn.
    - destruct Hh as [-> | ->]; simpl; now rewrite filter_all. }
  rewrite !filter_filter. apply filter_ext. intros e.
  unfold selected. now rewrite !Bool.andb_assoc.
Qed.

Lemma selected_spec user hid sd ed dd e :
  selected user hid sd ed dd e = true ↔
  entry_user e = user ∧
  (∀ n, hid = Some n → entry_habit e = n) ∧
  (∀ d, sd = Some d → d ≤ entry_date e) ∧
  (∀ d, ed = Some d → entry_date e ≤ d) ∧
  (∀ d, dd = Some d → entry_date e = d).
Proof.
  unfold selected, clause. rewrite !Bool.andb_true_iff, Z.eqb_eq.
  destruct hid, sd, ed, dd;
    rewrite ?Z.eqb_eq, ?Z.geb_le, ?Z.leb_le;
    (split;
     [ intros ((((H1 & H2) & H3) & H4) & H5);
       repeat (split; [try assumption; intros ? [= <-]; assumption |]);
       try (intros ? [= <-]; assumption); try discriminate
     | intros (H1 & H2 & H3 & H4 & H5); repeat split; eauto ]).
Qed.

Lemma entry_order_total x y :
  QuerySet.by_entry_date_desc x y = true ∨
  QuerySet.by_entry_date_desc y x = true.
Proof. unfold QuerySet.by_entry_date_desc. lia. Qed.

Lemma entry_order_sorted l :
  StronglySorted (fun a b => entry_date b ≤ entry_date a)
    (QuerySet.order_by QuerySet.by_entry_date_desc l).
Proof.
  apply Sorted_StronglySorted.
  - intros a b c. lia.
  - pose proof (order_by_sorted QuerySet.by_entry_date_desc l
                  entry_order_total) as HS.
    induction HS as [| x l' HS IH Hd]; constructor; auto.
    destruct Hd as [| y l'' Hxy]; constructor.
    unfold QuerySet.by_entry_date_desc in Hxy. lia.
Qed.

(** C8: with [start_date] and [end_date] the list is exactly the
    caller's entries whose date lies in the closed range, latest first;
    and in general every filter that is given ([habit_id], [start_date]
    as a lower bound, [end_date] as an upper bound, [date] as the exact
    day) must hold of a listed entry, all at once. *)
Theorem entry_list_filters (db : DB) (user : Z) (query_params : QueryDict.t)
    (hid sd ed dd : option Z) :
  asks int (QueryDict.get query_params "habit_id") hid →
  asks to_date (QueryDict.get query_params "start_date") sd →
  asks to_date (QueryDict.get query_params "end_date") ed →
  asks to_date (QueryDict.get query_params "date") dd →
  ∃ l, HabitEntryViewSet.get_queryset int to_date db user query_params = Ok l ∧
       (∀ e, In e l ↔
             In e (entries db) ∧ entry_user e = user ∧
             (∀ n, hid = Some n → entry_habit e = n) ∧
             (∀ d, sd = Some d → d ≤ entry_date e) ∧
             (∀ d, ed = Some d → entry_date e ≤ d) ∧
             (∀ d, dd = Some d → entry_date e = d)) ∧
       Permutation l (List.filter (selected user hid sd ed dd) (entries db)) ∧
       StronglySorted (fun a b => entry_date b ≤ entry_date a) l.
Proof.
  intros Hh Hs He Hd.
  rewrite (get_queryset_asks db user query_params hid sd ed dd)
    by assumption.
  eexists. split; [reflexivity |].
  split; [| split].
  - intros e. rewrite in_order_by, filter_In, selected_spec. reflexivity.
  - apply order_by_perm.
  - apply entry_order_sorted.
Qed.

(** C9: a [habit_id] that [int] rejects is ignored. The request is
    answered as the same request without the parameter: no failure
    comes from it and no entry is left out for its habit, while the
    owner scoping and the date filters apply as before. *)
Theorem habit_id_not_a_number (db : DB) (user : Z)
    (query_params : QueryDict.t) (s : string) :
  QueryDict.get query_params "habit_id" = Some s →
  int s = None →
  HabitEntryViewSet.get_queryset int to_date db user query_params
  = HabitEntryViewSet.get_queryset int to_date db user
      (QueryDict.without "habit_id" query_params) ∧
  (QueryDict.get query_params "start_date" = None →
   QueryDict.get query_params "end_date" = None →
   QueryDict.get query_params "date" = None →
   HabitEntryViewSet.get_queryset int to_date db user query_params
   = Ok (QuerySet.order_by QuerySet.by_entry_date_desc
           (List.filter (fun e => entry_user e =? user) (entries db)))).
Proof.
  intros Hget Hint. split.
  - unfold HabitEntryViewSet.get_queryset.
    rewrite !QueryDict_get_without. simpl. rewrite Hget, Hint.
    now destruct (Py.truthy s).
  - intros Hs He Hd. unfold HabitEntryViewSet.get_queryset.
    rewrite Hget, Hint, Hs, He, Hd. simpl. now destruct (Py.truthy s).
Qed.

End entry_list.

Lemma entry_list_filters_witness :
  ∃ l, HabitEntryViewSet.get_queryset decimal decimal Ex.db 7
         [("start_date", "100"); ("end_date", "105")] = Ok l ∧
       (∀ e, In e l ↔
             In e (entries Ex.db) ∧ entry_user e = 7 ∧
             (∀ n, None = Some n → entry_habit e = n) ∧
             (∀ d, Some 100 = Some d → d ≤ entry_date e) ∧
             (∀ d, Some 105 = Some d → entry_date e ≤ d) ∧
             (∀ d, None = Some d → entry_date e = d)) ∧
       Permutation l (List.filter (selected 7 None (Some 100) (Some 105) None)
                                  (entries Ex.db)) ∧
       StronglySorted (fun a b => entry_date b ≤ entry_date a) l.
Proof.
  apply (entry_list_filters decimal decimal Ex.db 7
           [("start_date", "100"); ("end_date", "105")]
           None (Some 100) (Some 105) None).
  - left. reflexivity.
  - exists "100". split; [reflexivity |]. split; [discriminate | reflexivity].
  - exists "105". split; [reflexivity |]. split; [discriminate | reflexivity].
  - left. reflexivity.
Defined.

Lemma habit_id_not_a_number_witness :
  HabitEntryViewSet.get_queryset decimal decimal Ex.db 7
    [("habit_id", "abc"); ("end_date", "105")]
  = HabitEntryViewSet.get_queryset decimal decimal Ex.db 7
      (QueryDict.without "habit_id" [("habit_id", "abc"); ("end_date", "105")]).
Proof.
  apply (habit_id_not_a_number decimal decimal Ex.db 7
           [("habit_id", "abc"); ("end_date", "105")] "abc");
    reflexivity.
Defined.

(** ** The field loop of a serializer *)

Section run_fields_facts.

Variable partial : bool.
Variable data : gmap string pyval.

Lemma run_fields_eq fields ret errors :
  Forall validation_only fields →
  run_fields fields partial data ret errors
  = Ok (foldl (field_value data) ret fields,
        (errors ++ flat_map (field_errors partial data) fields)%list).
Proof.
  intros Hall. revert ret errors.
  induction Hall as [| f fields Hf _ IH]; intros ret errors; simpl.
  - now rewrite app_nil_r.
  - unfold field_value, field_errors.
    destruct (data !! field_name f) as [v |].
    + destruct (field_run_validation f v) as [v' | e] eqn:Hv.
      * now rewrite IH.
      * destruct (Hf v e Hv) as [detail ->].
        rewrite IH. now rewrite <- app_assoc.
    + rewrite IH. destruct (field_required f && negb partial).
      * now rewrite <- app_assoc.
      * reflexivity.
Qed.

Lemma field_errors_accepted f :
  accepted partial data f → field_errors partial data f = [].
Proof.
  unfold accepted, field_errors.
  destruct (data !! field_name f) as [v |].
  - now intros [v' ->].
  - now intros ->.
Qed.

Lemma flat_map_accepted fields :
  Forall (accepted partial data) fields → flat_map (field_errors partial data) fields = [].
Proof.
  induction 1 as [| f fields Hf _ IH]; simpl; [reflexivity |].
  now rewrite field_errors_accepted, IH.
Qed.

Lemma foldl_field_value_other fields ret key :
  ¬ In key (List.map field_name fields) →
  foldl (field_value data) ret fields !! key = ret !! key.
Proof.
  revert ret. induction fields as [| f fields IH]; intros ret Hk; simpl.
  - reflexivity.
  - simpl in Hk. rewrite IH by tauto. unfold field_value.
    destruct (data !! field_name f) as [v |]; [| reflexivity].
    destruct (field_run_validation f v); [| reflexivity].
    apply lookup_insert_ne. tauto.
Qed.

Lemma foldl_field_value_lookup fields ret f :
  NoDup (List.map field_name fields) → In f fields →
  foldl (field_value data) ret fields !! field_name f
  = match data !! field_name f with
    | Some v =>
        match field_run_validation f v with
        | Ok v' => Some v'
        | Raise _ => ret !! field_name f
        end
    | None => ret !! field_name f
    end.
Proof.
  revert ret. induction fields as [| g fields IH]; intros ret Hnd Hin.
  - contradiction.
  - simpl in Hnd. inversion Hnd as [| ? ? Hg Hnd']; subst.
    destruct Hin as [-> | Hin]; simpl.
    + rewrite foldl_field_value_other by assumption.
      unfold field_value.
      destruct (data !! field_name f) as [v |]; [| reflexivity].
      destruct (field_run_validation f v); [| reflexivity].
      apply lookup_insert_eq.
    + rewrite IH by assumption.
      assert (field_name g ≠ field_name f) as Hne.
      { intros Heq. apply Hg. rewrite Heq. now apply in_map. }
      assert (field_value data ret g !! field_name f = ret !! field_name f)
        as ->; [| reflexivity].
      unfold field_value.
      destruct (data !! field_name g) as [w |]; [| reflexivity].
      destruct (field_run_validation g w); [| reflexivity].
      now rewrite lookup_insert_ne.
Qed.

Lemma to_internal_value_accepted fields :
  Forall validation_only fields → Forall (accepted partial data) fields →
  to_internal_value fields partial data = Ok (foldl (field_value data) ∅ fields).
Proof.
  intros Hv Ha. unfold to_internal_value.
  rewrite run_fields_eq by assumption. simpl.
  now rewrite flat_map_accepted.
Qed.

Lemma to_internal_value_ok fields ret :
  Forall validation_only fields →
  to_internal_value fields partial data = Ok ret →
  ret = foldl (field_value data) ∅ fields.
Proof.
  intros Hv. unfold to_internal_value.
  rewrite run_fields_eq by assumption. simpl.
  destruct (flat_map (field_errors partial data) fields); [congruence | discriminate].
Qed.

End run_fields_facts.

(** ** Habit names *)

Lemma habit_writable :
  writable HabitSerializer.Meta_fields HabitSerializer.Meta_read_only_fields
  = ["name"; "description"; "type"; "archived_at"; "color"; "goal_value";
     "goal_unit"].
Proof. reflexivity. Qed.

Lemma validate_name_short name :
  (String.length name < 3)%nat →
  ∃ msg, HabitSerializer.validate_name name = Raise (ValidationError msg).
Proof.
  intros Hlen. unfold HabitSerializer.validate_name, Py.len.
  destruct (negb (Py.truthy name)); [eauto |].
  destruct (Z.ltb_spec (Z.of_nat (String.length name)) 3); [eauto | lia].
Qed.

Lemma validate_name_long name :
  (3 ≤ String.length name)%nat →
  HabitSerializer.validate_name name = Ok name.
Proof.
  intros Hlen. unfold HabitSerializer.validate_name, Py.len.
  destruct name as [| c name]; [simpl in Hlen; lia |]. simpl negb. cbv iota.
  destruct (Z.ltb_spec (Z.of_nat (String.length (String c name))) 3);
    [lia | reflexivity].
Qed.

Section habit_names.

Variable name_validators : string → option string.

Lemma name_field_cases data :
  HabitSerializer.name_field name_validators (PStr data)
  = if String.eqb (Py.strip data) "" then
      Raise (ValidationError "This field may not be blank.")
    else
      match name_validators (Py.strip data) with
      | Some message => Raise (ValidationError message)
      | None =>
          value ← HabitSerializer.validate_name (Py.strip data);
          mret (PStr value)
      end.
Proof.
  unfold HabitSerializer.name_field.
  destruct data as [| c data]; [reflexivity |].
  reflexivity.
Qed.

Lemma name_field_short name :
  (String.length (Py.strip name) < 3)%nat →
  ∃ msg, HabitSerializer.name_field name_validators (PStr name)
         = Raise (ValidationError msg).
Proof.
  intros Hlen. rewrite name_field_cases.
  destruct (String.eqb (Py.strip name) ""); [eauto |].
  destruct (name_validators (Py.strip name)); [eauto |].
  destruct (validate_name_short _ Hlen) as [msg ->]. eauto.
Qed.

Lemma name_field_long name :
  (3 ≤ String.length (Py.strip name))%nat →
  name_validators (Py.strip name) = None →
  HabitSerializer.name_field name_validators (PStr name)
  = Ok (PStr (Py.strip name)).
Proof.
  intros Hlen Hv. rewrite name_field_cases, Hv, validate_name_long
    by assumption.
  destruct (String.eqb_spec (Py.strip name) "") as [Heq | _]; [| reflexivity].
  rewrite Heq in Hlen. simpl in Hlen. lia.
Qed.

Lemma name_field_name :
  field_name (HabitSerializer.field name_validators "name") = "name".
Proof. reflexivity. Qed.

Lemma name_field_run v :
  field_run_validation (HabitSerializer.field name_validators "name") v
  = HabitSerializer.name_field name_validators v.
Proof. reflexivity. Qed.

Lemma habit_fields_validation_only :
  Forall validation_only (HabitSerializer.fields name_validators).
Proof.
  unfold HabitSerializer.fields. rewrite habit_writable.
  repeat constructor; intros v e; simpl;
    destruct v; simpl; try discriminate; try (intros [= <-]; eauto).
  change (HabitSerializer.name_field name_validators (PStr s) = Raise e →
          ∃ detail, e = ValidationError detail).
  rewrite name_field_cases.
  destruct (String.eqb _ _); [intros H; inversion H; eauto |].
  destruct (name_validators _); [intros H; inversion H; eauto |].
  unfold HabitSerializer.validate_name.
  destruct (negb _); simpl; [intros H; inversion H; eauto |].
  destruct (Py.len _ <? 3); simpl; [intros H; inversion H; eauto | discriminate].
Qed.

Lemma habit_fields_nodup :
  NoDup (List.map field_name (HabitSerializer.fields name_validators)).
Proof.
  unfold HabitSerializer.fields. rewrite habit_writable. simpl.
  repeat constructor; simpl; intuition discriminate.
Qed.

Lemma habit_fields_names f :
  In f (HabitSerializer.fields name_validators) →
  f = HabitSerializer.field name_validators (field_name f) ∧
  In (field_name f)
     ["name"; "description"; "type"; "archived_at"; "color"; "goal_value";
      "goal_unit"].
Proof.
  unfold HabitSerializer.fields. rewrite habit_writable. simpl.
  intros H. repeat (destruct H as [<- | H]; [simpl; tauto |]). contradiction.
Qed.

Lemma habit_validation_short partial data name msg :
  data !! "name" = Some (PStr name) →
  rest_accepted name_validators partial data →
  HabitSerializer.name_field name_validators (PStr name)
  = Raise (ValidationError msg) →
  HabitSerializer.run_validation name_validators partial data
  = Raise (FieldErrors [("name", msg)]).
Proof.
  intros Hname Hrest Hmsg.
  unfold HabitSerializer.run_validation, to_internal_value.
  rewrite run_fields_eq by apply habit_fields_validation_only.
  assert (flat_map (field_errors partial data)
            (HabitSerializer.fields name_validators)
          = [("name", msg)]) as ->; [| reflexivity].
  pose proof Hrest as Hrest'. unfold rest_accepted in Hrest'.
  revert Hrest'. unfold HabitSerializer.fields. rewrite habit_writable.
  simpl List.map. intros Hrest'.
  match goal with
  | |- flat_map ?g (?x :: ?l) = _ =>
      change (flat_map g (x :: l)) with ((g x ++ flat_map g l)%list);
      rewrite (flat_map_accepted partial data l)
  end.
  - unfold field_errors. rewrite name_field_name, Hname, name_field_run.
    now rewrite Hmsg.
  - apply Forall_forall. intros f Hf. apply Hrest'; [now right |].
    simpl in Hf. intuition (subst; discriminate).
Qed.

Lemma habit_validation_long partial data name :
  data !! "name" = Some (PStr name) →
  rest_accepted name_validators partial data →
  (3 ≤ String.length (Py.strip name))%nat →
  name_validators (Py.strip name) = None →
  ∃ validated_data,
    HabitSerializer.run_validation name_validators partial data
    = Ok validated_data ∧
    validated_data !! "name" = Some (PStr (Py.strip name)) ∧
    validated_data !! "user" = None ∧
    (partial = false → ∃ t, validated_data !! "type" = Some (PType t)).
Proof.
  intros Hname Hrest Hlen Hval.
  pose proof (name_field_long name Hlen Hval) as Hok.
  assert (In (HabitSerializer.field name_validators "name")
             (HabitSerializer.fields name_validators)) as Hin.
  { unfold HabitSerializer.fields. rewrite habit_writable. simpl. tauto. }
  assert (In (HabitSerializer.field name_validators "type")
             (HabitSerializer.fields name_validators)) as Hint.
  { unfold HabitSerializer.fields. rewrite habit_writable. simpl. tauto. }
  eexists. split; [| split; [| split]].
  - apply to_internal_value_accepted; [apply habit_fields_validation_only |].
    apply Forall_forall. intros f Hf.
    destruct (String.eqb_spec (field_name f) "name") as [Heq | Hne].
    + apply habit_fields_names in Hf as [-> _]. rewrite Heq.
      unfold accepted. rewrite name_field_name, Hname, name_field_run, Hok.
      eauto.
    + now apply Hrest.
  - rewrite (foldl_field_value_lookup data
               (HabitSerializer.fields name_validators) ∅
               (HabitSerializer.field name_validators "name"))
      by (apply habit_fields_nodup || assumption).
    rewrite name_field_name, Hname, name_field_run. now rewrite Hok.
  - rewrite foldl_field_value_other; [apply lookup_empty |].
    unfold HabitSerializer.fields. rewrite habit_writable. simpl.
    intuition discriminate.
  - intros ->.
    rewrite (foldl_field_value_lookup data
               (HabitSerializer.fields name_validators) ∅
               (HabitSerializer.field name_validators "type"))
      by (apply habit_fields_nodup || assumption).
    assert (accepted false data (HabitSerializer.field name_validators "type"))
      as Hacc by (apply Hrest; [assumption | discriminate]).
    unfold accepted in Hacc. simpl in *.
    destruct (data !! "type") as [v |]; [| discriminate].
    destruct Hacc as [v' Hv].
    destruct v; simpl in *; try discriminate. eauto.
Qed.

(** C6 (as amended): [validate_name] refuses a value that is empty or
    shorter than three characters and returns any other value as it is.
    It is given the name trimmed of surrounding white space: a create or
    an update whose trimmed name is shorter than three characters fails
    with a validation error on the field [name]; with a trimmed name of
    three characters or more that the field's validators pass, and the
    rest of the payload in order, the habit is created or updated with
    the trimmed name and stored. *)
Theorem habit_name_length (name : string) :
  ((String.length name < 3)%nat →
   ∃ msg, HabitSerializer.validate_name name = Raise (ValidationError msg)) ∧
  ((3 ≤ String.length name)%nat →
   HabitSerializer.validate_name name = Ok name) ∧
  ((String.length (Py.strip name) < 3)%nat →
   ∃ msg,
     (∀ now db user data,
        data !! "name" = Some (PStr name) →
        rest_accepted name_validators false data →
        HabitViewSet.create name_validators now db user data
        = Raise (FieldErrors [("name", msg)])) ∧
     (∀ now db user (partial : bool) query_params pk data instance,
        HabitViewSet.get_object db user
          (if partial then ActPartialUpdate else ActUpdate) query_params pk
        = Ok instance →
        data !! "name" = Some (PStr name) →
        rest_accepted name_validators partial data →
        HabitViewSet.update name_validators now db user partial query_params
          pk data
        = Raise (FieldErrors [("name", msg)]))) ∧
  ((3 ≤ String.length (Py.strip name))%nat →
   name_validators (Py.strip name) = None →
   (∀ now db user data,
      data !! "name" = Some (PStr name) →
      rest_accepted name_validators false data →
      ∃ h, HabitViewSet.create name_validators now db user data
           = Ok (h, mkDB (habits db ++ [h]) (entries db)) ∧
           habit_name h = Py.strip name ∧ habit_user h = user) ∧
   (∀ now db user (partial : bool) query_params pk data instance,
      HabitViewSet.get_object db user
        (if partial then ActPartialUpdate else ActUpdate) query_params pk
      = Ok instance →
      data !! "name" = Some (PStr name) →
      rest_accepted name_validators partial data →
      ∃ h db', HabitViewSet.update name_validators now db user partial
                 query_params pk data
               = Ok (h, db') ∧
               habit_name h = Py.strip name ∧
               habit_id h = habit_id instance ∧
               habit_user h = habit_user instance ∧
               entries db' = entries db ∧
               HabitViewSet.get_object db' user
                 (if partial then ActPartialUpdate else ActUpdate)
                 query_params pk
               = Ok h)).
Proof.
  split; [apply validate_name_short |].
  split; [apply validate_name_long |].
  split.
  - intros Hlen. destruct (name_field_short name Hlen) as [msg Hmsg].
    exists msg. split.
    + intros now db user data Hname Hrest. unfold HabitViewSet.create.
      now rewrite (habit_validation_short false data name msg).
    + intros now db user partial query_params pk data instance
        Hget Hname Hrest.
      unfold HabitViewSet.update. rewrite Hget, bind_Ok.
      now rewrite (habit_validation_short partial data name msg).
  - intros Hlen Hval. split.
    + intros now db user data Hname Hrest.
      destruct (habit_validation_long false data name Hname Hrest Hlen Hval)
        as (vd & Hvd & Hn & _ & Ht).
      destruct (Ht eq_refl) as [t Htype].
      unfold HabitViewSet.create. rewrite Hvd, bind_Ok.
      unfold HabitSerializer.create.
      rewrite lookup_insert_eq.
      rewrite !lookup_insert_ne by discriminate.
      rewrite Hn, Htype.
      eexists. split; [reflexivity |]. simpl. split; reflexivity.
    + intros now db user partial query_params pk data instance
        Hget Hname Hrest.
      destruct (habit_validation_long partial data name Hname Hrest Hlen Hval)
        as (vd & Hvd & Hn & Hu & _).
      unfold HabitViewSet.update. rewrite Hget, bind_Ok, Hvd, bind_Ok.
      unfold HabitSerializer.update, save_habit.
      eexists _, _. split; [reflexivity |]. simpl.
      rewrite Hn, Hu. simpl.
      split; [reflexivity |]. split; [reflexivity |].
      split; [reflexivity |].
      apply get_object_inv in Hget as Hinv; [| now destruct partial].
      destruct Hinv as (Hin & Hiu & Hid).
      split.
      * unfold store_habit. now destruct (List.existsb _ _).
      * eapply get_object_save; eauto. now destruct partial.
Qed.

End habit_names.

(** C6 as stated fails: the name [" ab "] has four characters, and the
    create that carries it is refused, the name being trimmed to two. *)
Lemma habit_name_untrimmed :
  (3 ≤ String.length " ab ")%nat ∧
  HabitViewSet.create (fun _ => None) 50 Ex.db 7
    {[ "name" := PStr " ab "; "type" := PType SINGULAR ]}
  = Raise (FieldErrors
             [("name", "Name must be at least 3 characters long.")]).
Proof.
  split; [simpl; lia | reflexivity].
Qed.

(** ** Entry writes *)

Lemma value_rule_dec t v : {value_rule t v} + {¬ value_rule t v}.
Proof.
  destruct t; simpl; [apply Z.eq_dec | apply Z_lt_dec].
Defined.

Lemma entry_writable :
  writable HabitEntrySerializer.Meta_fields
           HabitEntrySerializer.Meta_read_only_fields
  = ["habit"; "entry_date"; "value"; "notes"].
Proof. reflexivity. Qed.

Lemma entry_fields_eq db user :
  HabitEntrySerializer.fields db user
  = [HabitEntrySerializer.habit_field db user;
     mkField "entry_date" true expect_date;
     mkField "value" true expect_int;
     mkField "notes" false expect_str].
Proof.
  unfold HabitEntrySerializer.fields. now rewrite entry_writable.
Qed.

Lemma validate_habit_cases user h :
  HabitEntrySerializer.validate_habit user h
  = if negb (habit_user h =? user) then
      Raise (ValidationError own_habits_message)
    else if bool_decide (habit_archived_at h = None) then Ok h
    else Raise (ValidationError archived_message).
Proof.
  unfold HabitEntrySerializer.validate_habit.
  destruct (negb (habit_user h =? user)); [reflexivity |].
  now destruct (habit_archived_at h).
Qed.

Lemma entry_fields_validation_only db user :
  Forall validation_only (HabitEntrySerializer.fields db user).
Proof.
  rewrite entry_fields_eq.
  repeat constructor; intros v e; simpl;
    destruct v; simpl; try discriminate; try (intros [= <-]; eauto).
  destruct (QuerySet.get_pk z (habits db)) as [h |];
    [| intros [= <-]; eauto].
  rewrite validate_habit_cases.
  destruct (negb _); simpl; [intros [= <-]; eauto |].
  destruct (bool_decide _); simpl; [discriminate | intros [= <-]; eauto].
Qed.

Lemma entry_fields_nodup db user :
  NoDup (List.map field_name (HabitEntrySerializer.fields db user)).
Proof.
  rewrite entry_fields_eq. simpl.
  repeat constructor; simpl; intuition discriminate.
Qed.

Lemma validate_ok db instance attrs validated :
  HabitEntrySerializer.validate db instance attrs = Ok validated →
  validated = attrs.
Proof.
  unfold HabitEntrySerializer.validate.
  destruct (_ && _); [| congruence].
  destruct (HabitEntrySerializer.dot_type _) as [t | e]; [| discriminate].
  simpl. destruct (_ && _); [discriminate |].
  destruct (if HabitEntrySerializer.HabitType_eqb t TIMED then _ else _)
    as [[|] | e]; simpl; congruence.
Qed.

Lemma validate_typed db instance attrs h v :
  default (HabitEntrySerializer.getattr_habit db instance) (attrs !! "habit")
  = PHabit h →
  default (HabitEntrySerializer.getattr_value instance) (attrs !! "value")
  = PInt v →
  HabitEntrySerializer.validate db instance attrs
  = if value_rule_dec (habit_type h) v then Ok attrs
    else Raise (ValidationError (value_rule_message (habit_type h))).
Proof.
  intros Hh Hv. unfold HabitEntrySerializer.validate.
  rewrite Hh, Hv. simpl.
  destruct (value_rule_dec (habit_type h) v) as [Hr | Hr];
    destruct (habit_type h); simpl in *.
  - subst v. reflexivity.
  - destruct (Z.leb_spec v 0); [lia | reflexivity].
  - destruct (Z.eqb_spec v 1); [contradiction | reflexivity].
  - destruct (Z.leb_spec v 0); [reflexivity | lia].
Qed.

Lemma entry_habit_errors db user partial data ph pv :
  entry_payload db user partial data ph pv →
  field_errors partial data (HabitEntrySerializer.habit_field db user)
  = match ph with
    | Some h =>
        if negb (habit_user h =? user) then [("habit", own_habits_message)]
        else if bool_decide (habit_archived_at h = None) then []
        else [("habit", archived_message)]
    | None => []
    end.
Proof.
  intros [Hh _ _ _ Hfull]. unfold field_errors. simpl.
  destruct ph as [h |].
  - destruct Hh as (pk & -> & Hpk). rewrite Hpk, validate_habit_cases.
    destruct (negb _); [reflexivity |]. now destruct (bool_decide _).
  - rewrite Hh. destruct partial; [reflexivity |].
    destruct (Hfull eq_refl) as [[? [=]] _].
Qed.

Lemma entry_rest_errors db user partial data ph pv :
  entry_payload db user partial data ph pv →
  flat_map (field_errors partial data)
    [mkField "entry_date" true expect_date;
     mkField "value" true expect_int;
     mkField "notes" false expect_str] = [].
Proof.
  intros [_ Hv Hd Hn Hfull]. apply flat_map_accepted.
  repeat constructor; try assumption.
  unfold accepted. simpl. rewrite Hv.
  destruct pv as [v |]; simpl; [eauto |].
  destruct partial; [reflexivity |].
  destruct (Hfull eq_refl) as [_ [? [=]]].
Qed.

Lemma entry_field_errors db user partial data ph pv :
  entry_payload db user partial data ph pv →
  flat_map (field_errors partial data) (HabitEntrySerializer.fields db user)
  = match ph with
    | Some h =>
        if negb (habit_user h =? user) then [("habit", own_habits_message)]
        else if bool_decide (habit_archived_at h = None) then []
        else [("habit", archived_message)]
    | None => []
    end.
Proof.
  intros Hp. rewrite entry_fields_eq.
  change (flat_map ?g (?x :: ?l)) with ((g x ++ flat_map g l)%list).
  rewrite (entry_rest_errors db user partial data ph pv Hp), app_nil_r.
  now apply (entry_habit_errors db user partial data ph pv).
Qed.

Lemma entry_attrs db user partial data ph pv :
  entry_payload db user partial data ph pv →
  (∀ h, ph = Some h → habit_user h = user ∧ habit_archived_at h = None) →
  let attrs := foldl (field_value data) ∅ (HabitEntrySerializer.fields db user) in
  to_internal_value (HabitEntrySerializer.fields db user) partial data
  = Ok attrs ∧
  attrs !! "habit" = PHabit <$> ph ∧
  attrs !! "value" = PInt <$> pv ∧
  attrs !! "user" = None ∧
  (partial = false → ∃ d, attrs !! "entry_date" = Some (PDate d)).
Proof.
  intros Hp Hown attrs. split; [| split; [| split; [| split]]].
  - unfold to_internal_value.
    rewrite run_fields_eq by apply entry_fields_validation_only.
    rewrite (entry_field_errors db user partial data ph pv Hp).
    destruct ph as [h |]; [| reflexivity].
    destruct (Hown h eq_refl) as [-> ->]. now rewrite Z.eqb_refl.
  - subst attrs.
    rewrite (foldl_field_value_lookup data _ ∅
               (HabitEntrySerializer.habit_field db user))
      by (apply entry_fields_nodup || (rewrite entry_fields_eq; now left)).
    destruct Hp as [Hh _ _ _ _]. simpl.
    destruct ph as [h |]; [| now rewrite Hh].
    destruct Hh as (pk & -> & Hpk). rewrite Hpk, validate_habit_cases.
    destruct (Hown h eq_refl) as [-> ->]. now rewrite Z.eqb_refl.
  - subst attrs.
    rewrite (foldl_field_value_lookup data _ ∅
               (mkField "value" true expect_int))
      by (apply entry_fields_nodup
          || (rewrite entry_fields_eq; simpl; tauto)).
    destruct Hp as [_ Hv _ _ _]. simpl. rewrite Hv.
    now destruct pv.
  - subst attrs. rewrite foldl_field_value_other; [apply lookup_empty |].
    rewrite entry_fields_eq. simpl. intuition discriminate.
  - intros ->. subst attrs.
    rewrite (foldl_field_value_lookup data _ ∅
               (mkField "entry_date" true expect_date))
      by (apply entry_fields_nodup
          || (rewrite entry_fields_eq; simpl; tauto)).
    destruct Hp as [_ _ Hd _ _]. unfold accepted in Hd. simpl in *.
    destruct (data !! "entry_date") as [v |]; [| discriminate].
    destruct Hd as [v' Hv']. destruct v; simpl in *; try discriminate. eauto.
Qed.

Lemma entry_validation db user instance partial data ph pv h v :
  entry_payload db user partial data ph pv →
  (∀ h', ph = Some h' → habit_user h' = user ∧ habit_archived_at h' = None) →
  default (HabitEntrySerializer.getattr_habit db instance) (PHabit <$> ph)
  = PHabit h →
  default (HabitEntrySerializer.getattr_value instance) (PInt <$> pv)
  = PInt v →
  ∃ attrs,
    HabitEntrySerializer.run_validation db user instance partial data
    = (if value_rule_dec (habit_type h) v then Ok attrs
       else Raise (ValidationError (value_rule_message (habit_type h)))) ∧
    attrs !! "habit" = PHabit <$> ph ∧
    attrs !! "value" = PInt <$> pv ∧
    attrs !! "user" = None ∧
    (partial = false → ∃ d, attrs !! "entry_date" = Some (PDate d)).
Proof.
  intros Hp Hown Hh Hv.
  pose proof (entry_attrs db user partial data ph pv Hp Hown) as Hattrs.
  cbv zeta in Hattrs. destruct Hattrs as (Hto & Hah & Hav & Hau & Had).
  exists (foldl (field_value data) ∅ (HabitEntrySerializer.fields db user)).
  split; [| repeat split; assumption].
  unfold HabitEntrySerializer.run_validation. rewrite Hto, bind_Ok.
  apply validate_typed; [now rewrite Hah | now rewrite Hav].
Qed.

Lemma entry_create_result now db user data h v :
  entry_payload db user false data (Some h) (Some v) →
  habit_user h = user → habit_archived_at h = None →
  if value_rule_dec (habit_type h) v then
    ∃ e, HabitEntryViewSet.create now db user data
         = Ok (e, mkDB (habits db) (entries db ++ [e])) ∧
         entry_user e = user ∧ entry_habit e = habit_id h ∧
         entry_value e = v
  else HabitEntryViewSet.create now db user data
       = Raise (ValidationError (value_rule_message (habit_type h))).
Proof.
  intros Hp Hu Ha.
  destruct (entry_validation db user None false data (Some h) (Some v) h v)
    as (attrs & Hrun & Hah & Hav & _ & Had); try reflexivity; try assumption.
  { now intros h' [= <-]. }
  unfold HabitEntryViewSet.create. rewrite Hrun.
  destruct (value_rule_dec (habit_type h) v); [| reflexivity].
  simpl. unfold HabitEntrySerializer.create, HabitEntrySerializer.super_create.
  destruct (Had eq_refl) as [d Hd].
  rewrite lookup_insert_eq. rewrite !lookup_insert_ne by discriminate.
  rewrite Hah, Hav, Hd. simpl. eexists. split; [reflexivity |]. simpl. auto.
Qed.

Lemma entry_create_field_error now db user data h v msg :
  entry_payload db user false data (Some h) (Some v) →
  (if negb (habit_user h =? user) then [("habit", own_habits_message)]
   else if bool_decide (habit_archived_at h = None) then []
   else [("habit", archived_message)]) = [("habit", msg)] →
  HabitEntryViewSet.create now db user data
  = Raise (FieldErrors [("habit", msg)]).
Proof.
  intros Hp Herr.
  unfold HabitEntryViewSet.create, HabitEntrySerializer.run_validation,
    to_internal_value.
  rewrite run_fields_eq by apply entry_fields_validation_only.
  rewrite (entry_field_errors db user false data (Some h) (Some v) Hp).
  now rewrite Herr.
Qed.

Lemma entry_create_stored now db user data h v d :
  entry_payload db user false data (Some h) (Some v) →
  data !! "entry_date" = Some (PDate d) →
  habit_user h = user → habit_archived_at h = None →
  value_rule (habit_type h) v →
  ∃ e, HabitEntryViewSet.create now db user data
       = Ok (e, mkDB (habits db) (entries db ++ [e])) ∧
       entry_user e = user ∧ entry_habit e = habit_id h ∧
       entry_date e = d ∧ entry_value e = v.
Proof.
  intros Hp Hd Hu Ha Hr.
  pose proof (entry_attrs db user false data (Some h) (Some v) Hp) as Hattrs.
  cbv zeta in Hattrs.
  destruct Hattrs as (Hto & Hah & Hav & _ & _); [now intros h' [= <-] |].
  unfold HabitEntryViewSet.create, HabitEntrySerializer.run_validation.
  rewrite Hto, bind_Ok.
  rewrite (validate_typed db None _ h v) by (now rewrite ?Hah, ?Hav).
  destruct (value_rule_dec (habit_type h) v); [| contradiction].
  rewrite bind_Ok.
  unfold HabitEntrySerializer.create, HabitEntrySerializer.super_create.
  rewrite lookup_insert_eq. rewrite !lookup_insert_ne by discriminate.
  rewrite Hah, Hav.
  rewrite (foldl_field_value_lookup data _ ∅
             (mkField "entry_date" true expect_date))
    by (apply entry_fields_nodup
        || (rewrite entry_fields_eq; simpl; tauto)).
  simpl field_name. rewrite Hd. simpl.
  eexists. split; [reflexivity |]. simpl. auto.
Qed.

(** C2: against a habit of the caller that is not archived, and with the
    required fields given, an entry for a SINGULAR habit is created
    exactly when its value is 1, and an entry for a TIMED habit exactly
    when its value is positive. The entry created is the caller's, for
    that habit, with the date and the value of the payload, and is added
    to the table; a value that breaks the rule is refused with the
    message of the habit's type. *)
Theorem entry_value_rule (now : Z) (db : DB) (user : Z)
    (data : gmap string pyval) (h : Habit) (v d : Z) :
  entry_payload db user false data (Some h) (Some v) →
  data !! "entry_date" = Some (PDate d) →
  habit_user h = user → habit_archived_at h = None →
  (habit_type h = SINGULAR →
     ((∃ e db', HabitEntryViewSet.create now db user data = Ok (e, db'))
      ↔ v = 1)) ∧
  (habit_type h = TIMED →
     ((∃ e db', HabitEntryViewSet.create now db user data = Ok (e, db'))
      ↔ 0 < v)) ∧
  (∀ e db',
     HabitEntryViewSet.create now db user data = Ok (e, db') →
     db' = mkDB (habits db) (entries db ++ [e]) ∧
     entry_user e = user ∧ entry_habit e = habit_id h ∧
     entry_date e = d ∧ entry_value e = v) ∧
  (¬ value_rule (habit_type h) v →
   HabitEntryViewSet.create now db user data
   = Raise (ValidationError (value_rule_message (habit_type h)))).
Proof.
  intros Hp Hd Hu Ha.
  pose proof (entry_create_result now db user data h v Hp Hu Ha) as Hres.
  pose proof (entry_create_stored now db user data h v d Hp Hd Hu Ha)
    as Hstored.
  destruct (value_rule_dec (habit_type h) v) as [Hr | Hr].
  - destruct (Hstored Hr) as (e0 & Hcreate & Hpins).
    split; [| split; [| split]].
    + intros Ht. rewrite Ht in Hr. simpl in Hr. split; eauto.
    + intros Ht. rewrite Ht in Hr. simpl in Hr. split; eauto.
    + intros e db' Hok. rewrite Hcreate in Hok.
      injection Hok as <- <-. split; [reflexivity | exact Hpins].
    + contradiction.
  - split; [| split; [| split]].
    + intros Ht. rewrite Ht in Hr. simpl in Hr.
      split; [intros (e & db' & Hok); congruence | contradiction].
    + intros Ht. rewrite Ht in Hr. simpl in Hr.
      split; [intros (e & db' & Hok); congruence | contradiction].
    + intros e db' Hok. congruence.
    + intros _. assumption.
Qed.

(** C3: entry creation checks the habit's owner first, its archived state
    second and the value last, and fails at the first check that does:
    a habit of another user gives the own-habits error whatever its
    archived state and the value; an archived habit of the caller gives
    the archived error whatever the value; and only for an active habit
    of the caller does a wrong value give the value error. *)
Theorem entry_create_checks (now : Z) (db : DB) (user : Z)
    (data : gmap string pyval) (h : Habit) (v : Z) :
  entry_payload db user false data (Some h) (Some v) →
  (habit_user h ≠ user →
     HabitEntryViewSet.create now db user data
     = Raise (FieldErrors [("habit", own_habits_message)])) ∧
  (habit_user h = user → habit_archived_at h ≠ None →
     HabitEntryViewSet.create now db user data
     = Raise (FieldErrors [("habit", archived_message)])) ∧
  (habit_user h = user → habit_archived_at h = None →
     ¬ value_rule (habit_type h) v →
     HabitEntryViewSet.create now db user data
     = Raise (ValidationError (value_rule_message (habit_type h)))) ∧
  (habit_user h = user → habit_archived_at h = None →
     value_rule (habit_type h) v →
     ∃ e db', HabitEntryViewSet.create now db user data = Ok (e, db')).
Proof.
  intros Hp. split; [| split; [| split]].
  - intros Hu. apply (entry_create_field_error now db user data h v);
      [assumption |].
    destruct (Z.eqb_spec (habit_user h) user); [contradiction | reflexivity].
  - intros Hu Ha. apply (entry_create_field_error now db user data h v);
      [assumption |].
    rewrite Hu, Z.eqb_refl. simpl.
    now rewrite bool_decide_eq_false_2.
  - intros Hu Ha Hr.
    pose proof (entry_create_result now db user data h v Hp Hu Ha) as Hres.
    destruct (value_rule_dec (habit_type h) v); [contradiction | assumption].
  - intros Hu Ha Hr.
    pose proof (entry_create_result now db user data h v Hp Hu Ha) as Hres.
    destruct (value_rule_dec (habit_type h) v); [| contradiction].
    destruct Hres as (e & Hres & _). eauto.
Qed.

(** C4: on an update, full or partial, the value is checked against the
    habit type with the habit and the value of the payload where they are
    given and those of the stored entry where they are not; the check
    runs in every case, so also when only one of the two is given. *)
Theorem entry_update_cross_check (now : Z) (db : DB) (user : Z)
    (partial : bool)
    (instance : HabitEntry) (data : gmap string pyval)
    (ph : option Habit) (pv : option Z) (h0 : Habit) :
  QuerySet.get_pk (entry_habit instance) (habits db) = Some h0 →
  entry_payload db user partial data ph pv →
  (∀ h, ph = Some h → habit_user h = user ∧ habit_archived_at h = None) →
  let habit := default h0 ph in
  let value := default (entry_value instance) pv in
  (value_rule (habit_type habit) value →
     ∃ e db', HabitEntryViewSet.update now db user partial instance data
              = Ok (e, db') ∧
              entry_habit e = habit_id habit ∧ entry_value e = value) ∧
  (¬ value_rule (habit_type habit) value →
     HabitEntryViewSet.update now db user partial instance data
     = Raise (ValidationError (value_rule_message (habit_type habit)))).
Proof.
  intros Hh0 Hp Hown habit value.
  destruct (entry_validation db user (Some instance) partial data ph pv
              habit value Hp Hown)
    as (attrs & Hrun & Hah & Hav & _ & _).
  { subst habit. simpl. rewrite Hh0. now destruct ph. }
  { subst value. now destruct pv. }
  unfold HabitEntryViewSet.update. rewrite Hrun.
  destruct (value_rule_dec (habit_type habit) value) as [Hr | Hr].
  - split; [| contradiction]. intros _. simpl.
    unfold HabitEntrySerializer.update, save_entry. eexists _, _.
    split; [reflexivity |]. simpl. rewrite Hah, Hav.
    subst habit value. apply get_pk_some in Hh0 as [_ Hid].
    destruct ph, pv; simpl; auto.
  - split; [contradiction | reflexivity].
Qed.

(** ** The owner of an entry *)

Lemma run_fields_ext fields partial data data' ret errors :
  (∀ f, In f fields → data !! field_name f = data' !! field_name f) →
  run_fields fields partial data ret errors
  = run_fields fields partial data' ret errors.
Proof.
  revert ret errors.
  induction fields as [| f fields IH]; intros ret errors Hext; simpl.
  - reflexivity.
  - rewrite <- (Hext f) by now left.
    destruct (data !! field_name f) as [v |].
    + destruct (field_run_validation f v) as [v' | []];
        try reflexivity; apply IH; intros g Hg; apply Hext; now right.
    + apply IH. intros g Hg. apply Hext. now right.
Qed.




(** ** The entry theorems on the example data *)

Lemma run_entry_payload :
  entry_payload Ex.db 7 false Ex.run_entry (Some Ex.run) (Some 1).
Proof.
  constructor.
  - exists 1. split; reflexivity.
  - reflexivity.
  - unfold accepted. simpl. eexists. reflexivity.
  - reflexivity.
  - intros _. split; eexists; reflexivity.
Defined.

Lemma swim_entry_payload :
  entry_payload Ex.db 7 false Ex.swim_entry (Some Ex.swim) (Some 0).
Proof.
  constructor.
  - exists 3. split; reflexivity.
  - reflexivity.
  - unfold accepted. simpl. eexists. reflexivity.
  - reflexivity.
  - intros _. split; eexists; reflexivity.
Defined.

Lemma entry_value_rule_witness :
  (∃ e db', HabitEntryViewSet.create 50 Ex.db 7 Ex.run_entry = Ok (e, db'))
  ↔ 1 = 1.
Proof.
  apply (entry_value_rule 50 Ex.db 7 Ex.run_entry Ex.run 1 120
           run_entry_payload eq_refl eq_refl eq_refl).
  reflexivity.
Defined.

Lemma entry_create_checks_witness :
  HabitEntryViewSet.create 50 Ex.db 7 Ex.swim_entry
  = Raise (FieldErrors [("habit", own_habits_message)]).
Proof.
  apply (entry_create_checks 50 Ex.db 7 Ex.swim_entry Ex.swim 0);
    [exact swim_entry_payload | discriminate].
Defined.


Lemma value_only_payload :
  entry_payload Ex.db 7 true {[ "value" := PInt 2 ]} None (Some 2).
Proof.
  constructor; try reflexivity. discriminate.
Defined.

Lemma entry_update_cross_check_witness :
  HabitEntryViewSet.update 60 Ex.db 7 true Ex.e1 {[ "value" := PInt 2 ]}
  = Raise (ValidationError (value_rule_message SINGULAR)).
Proof.
  apply (entry_update_cross_check 60 Ex.db 7 true Ex.e1 {[ "value" := PInt 2 ]}
           None (Some 2) Ex.run).
  - reflexivity.
  - exact value_only_payload.
  - discriminate.
  - simpl. discriminate.
Defined.

Lemma name_and_type_accepted name_validators name t :
  rest_accepted name_validators false
    {[ "name" := PStr name; "type" := PType t ]}.
Proof.
  intros f Hf Hne. unfold HabitSerializer.fields in Hf.
  rewrite habit_writable in Hf. simpl in Hf.
  repeat (destruct Hf as [<- | Hf];
          [ first [ now contradiction Hne
                  | unfold accepted; vm_compute; eexists; reflexivity
                  | reflexivity ] |]).
  contradiction.
Defined.

Lemma habit_name_length_witness :
  (∃ msg, HabitViewSet.create (fun _ => None) 50 Ex.db 7 Ex.short_habit
          = Raise (FieldErrors [("name", msg)])) ∧
  (∃ h, HabitViewSet.create (fun _ => None) 50 Ex.db 7 Ex.walk_habit
        = Ok (h, mkDB (habits Ex.db ++ [h]) (entries Ex.db)) ∧
        habit_name h = Py.strip "Walk" ∧ habit_user h = 7).
Proof.
  split.
  - destruct (habit_name_length (fun _ => None) "Ab") as (_ & _ & Hshort & _).
    destruct Hshort as (msg & Hcreate & _); [simpl; lia |].
    exists msg.
    apply Hcreate; [reflexivity | apply name_and_type_accepted].
  - destruct (habit_name_length (fun _ => None) "Walk") as (_ & _ & _ & Hlong).
    destruct Hlong as (Hcreate & _); [simpl; lia | reflexivity |].
    apply Hcreate; [reflexivity | apply name_and_type_accepted].
Defined.

(** * Further properties of the views and serializers *)

(** ** The order of names *)

Lemma ascii_compare_trans_le a b c :
  Ascii.compare a b ≠ Gt → Ascii.compare b c ≠ Gt → Ascii.compare a c ≠ Gt.
Proof.
  unfold Ascii.compare. rewrite !N.compare_le_iff. apply N.le_trans.
Qed.

Lemma ascii_compare_eq a b : Ascii.compare a b = Eq ↔ a = b.
Proof.
  split; [apply Ascii.compare_eq_iff |].
  intros ->. unfold Ascii.compare. apply N.compare_refl.
Qed.

Lemma ascii_compare_lt_trans a b c :
  Ascii.compare a b = Lt → Ascii.compare b c = Lt → Ascii.compare a c = Lt.
Proof.
  unfold Ascii.compare. rewrite !N.compare_lt_iff. apply N.lt_trans.
Qed.

Lemma string_compare_trans_le s1 :
  ∀ s2 s3, String.compare s1 s2 ≠ Gt → String.compare s2 s3 ≠ Gt →
           String.compare s1 s3 ≠ Gt.
Proof.
  induction s1 as [| a s1 IH]; intros [| b s2] [| c s3]; simpl;
    try congruence.
  destruct (Ascii.compare a b) eqn:Hab; [| | congruence].
  - apply ascii_compare_eq in Hab as ->.
    destruct (Ascii.compare b c) eqn:Hbc; [apply IH | congruence | congruence].
  - destruct (Ascii.compare b c) eqn:Hbc; [| | congruence].
    + apply ascii_compare_eq in Hbc as ->. rewrite Hab. congruence.
    + rewrite (ascii_compare_lt_trans a b c Hab Hbc). congruence.
Qed.

Lemma string_leb_trans s1 s2 s3 :
  String.leb s1 s2 = true → String.leb s2 s3 = true → String.leb s1 s3 = true.
Proof.
  unfold String.leb. intros H12 H23.
  pose proof (string_compare_trans_le s1 s2 s3) as Ht.
  destruct (String.compare s1 s2); destruct (String.compare s2 s3);
    destruct (String.compare s1 s3); try reflexivity; try discriminate;
    exfalso; apply Ht; congruence.
Qed.

Lemma habit_queryset_in db user act query_params h :
  In h (HabitViewSet.get_queryset db user act query_params) →
  In h (habits db) ∧ habit_user h = user.
Proof.
  unfold HabitViewSet.get_queryset. fold (own_habits db user).
  rewrite in_order_by. intros Hin. apply in_own_habits.
  destruct (is_list act); [| assumption].
  destruct (QueryDict.get query_params "archived") as [p |].
  - destruct (bool_decide _); [now apply filter_In in Hin |].
    destruct (bool_decide _); [now apply filter_In in Hin | assumption].
  - now apply filter_In in Hin.
Qed.

(** X1: whatever the action and the query string, the habits come out of
    [get_queryset] in ascending order of name. *)
Theorem habit_queryset_sorted (db : DB) (user : Z) (act : action)
    (query_params : QueryDict.t) :
  StronglySorted
    (fun a b => String.leb (habit_name a) (habit_name b) = true)
    (HabitViewSet.get_queryset db user act query_params).
Proof.
  unfold HabitViewSet.get_queryset.
  apply Sorted_StronglySorted.
  - intros a b c. apply string_leb_trans.
  - apply (order_by_sorted QuerySet.by_name).
    intros x y. apply String.leb_total.
Qed.

(** X2: a habit that [get_queryset] yields, for any action and any query
    string, is a row of the table and belongs to the requesting user:
    no parameter opens another user's habits. *)
Theorem habit_queryset_own (db : DB) (user : Z) (act : action)
    (query_params : QueryDict.t) (h : Habit) :
  In h (HabitViewSet.get_queryset db user act query_params) →
  In h (habits db) ∧ habit_user h = user.
Proof. apply habit_queryset_in. Qed.

Lemma habit_queryset_own_witness :
  In Ex.read (habits Ex.db) ∧ habit_user Ex.read = 7.
Proof.
  apply (habit_queryset_own Ex.db 7 ActList [("archived", "1")] Ex.read).
  left. reflexivity.
Defined.

Lemma get_object_never_denied db user act query_params pk :
  HabitViewSet.get_object db user act query_params pk ≠ Raise PermissionDenied.
Proof.
  unfold HabitViewSet.get_object.
  destruct (QuerySet.get_pk pk _) as [obj |] eqn:Hget; [| discriminate].
  apply get_pk_some in Hget as [Hin _].
  apply habit_queryset_in in Hin as [_ ->].
  unfold IsOwner.has_object_permission. rewrite Z.eqb_refl. discriminate.
Qed.

Lemma get_object_404_iff db user act query_params pk :
  is_list act = false →
  HabitViewSet.get_object db user act query_params pk = Raise Http404 ↔
  ∀ h, In h (habits db) → habit_user h = user → habit_id h ≠ pk.
Proof.
  intros Hact. split.
  - intros H404 h Hin Hu Hid.
    destruct (get_pk_in pk (HabitViewSet.get_queryset db user act query_params) h)
      as [x Hx]; [| assumption |].
    + rewrite get_queryset_single by assumption.
      apply in_order_by, in_own_habits. auto.
    + unfold HabitViewSet.get_object in H404. rewrite Hx in H404.
      destruct (IsOwner.has_object_permission _ _); discriminate.
  - intros Hnone. unfold HabitViewSet.get_object.
    destruct (QuerySet.get_pk pk _) as [obj |] eqn:Hget; [| reflexivity].
    apply get_pk_some in Hget as [Hin Hid].
    apply habit_queryset_in in Hin as [Hin Hu].
    exfalso. exact (Hnone obj Hin Hu Hid).
Qed.

(** X3: a single-object lookup answers [Http404] exactly when the caller
    has no habit of that id, so another user's habit is answered like an
    id that does not exist; the object permission never denies, the
    queryset being the caller's own. *)
Theorem get_object_not_found (db : DB) (user : Z) (act : action)
    (query_params : QueryDict.t) (pk : Z) :
  is_list act = false →
  (HabitViewSet.get_object db user act query_params pk = Raise Http404 ↔
   ∀ h, In h (habits db) → habit_user h = user → habit_id h ≠ pk) ∧
  (∀ h, NoDup (List.map habit_id (habits db)) →
        In h (habits db) → habit_user h ≠ user → habit_id h = pk →
        HabitViewSet.get_object db user act query_params pk = Raise Http404) ∧
  HabitViewSet.get_object db user act query_params pk ≠ Raise PermissionDenied.
Proof.
  intros Hact. split; [| split].
  - now apply get_object_404_iff.
  - intros h Hnd Hin Hu Hid. apply get_object_404_iff; [assumption |].
    intros h' Hin' Hu' Hid'. apply Hu.
    assert (h' = h) as <-; [| assumption].
    assert (QuerySet.get_pk (habit_id h) (habits db) = Some h) as H1
      by now apply find_pk_unique.
    assert (QuerySet.get_pk (habit_id h') (habits db) = Some h') as H2
      by now apply find_pk_unique.
    rewrite Hid in H1. rewrite Hid' in H2. congruence.
  - apply get_object_never_denied.
Qed.

Lemma get_object_not_found_witness :
  HabitViewSet.get_object Ex.db 7 ActRetrieve [] 3 = Raise Http404.
Proof.
  destruct (get_object_not_found Ex.db 7 ActRetrieve [] 3 eq_refl)
    as (_ & H & _).
  apply (H Ex.swim).
  - simpl. repeat constructor; simpl; intuition discriminate.
  - simpl. auto.
  - discriminate.
  - reflexivity.
Defined.

(** ** Archive and unarchive: what they touch *)

Lemma store_habit_present h' db :
  (∃ r, In r (habits db) ∧ habit_id r = habit_id h') →
  habits (store_habit h' db)
  = List.map (fun r => if habit_id r =? habit_id h' then h' else r) (habits db)
  ∧ entries (store_habit h' db) = entries db.
Proof.
  intros (r & Hin & Hid). unfold store_habit.
  destruct (List.existsb _ (habits db)) eqn:Hex; [split; reflexivity |].
  exfalso. apply Bool.not_true_iff_false in Hex. apply Hex.
  apply existsb_exists. exists r. split; [assumption | lia].
Qed.

Lemma store_habit_frame h' db :
  (∃ r, In r (habits db) ∧ habit_id r = habit_id h') →
  habit_frame (habit_id h') db (store_habit h' db) ∧
  ∀ r, In r (habits (store_habit h' db)) → habit_id r = habit_id h' → r = h'.
Proof.
  intros Hex. destruct (store_habit_present h' db Hex) as [Hh He].
  unfold habit_frame. rewrite Hh, He. repeat split.
  - apply length_map.
  - intros Hin. apply in_map_iff in Hin as (y & Hy & Hin).
    destruct (Z.eqb_spec (habit_id y) (habit_id h')); subst; congruence.
  - intros Hin. apply in_map_iff. exists r. split; [| assumption].
    destruct (Z.eqb_spec (habit_id r) (habit_id h')); congruence.
  - intros r Hin Hid. apply in_map_iff in Hin as (y & Hy & Hin).
    destruct (Z.eqb_spec (habit_id y) (habit_id h')); subst; congruence.
Qed.

Lemma habit_frame_refl pk db : habit_frame pk db db.
Proof. unfold habit_frame. tauto. Qed.

Lemma archive_inv now db user query_params pk h' db' :
  HabitViewSet.archive now db user query_params pk = Ok (h', db') →
  ∃ h, HabitViewSet.get_object db user ActArchive query_params pk = Ok h ∧
       ((habit_archived_at h = None ∧
         h' = set_updated_at now (set_archived_at (Some now) h) ∧
         db' = store_habit h' db) ∨
        (habit_archived_at h ≠ None ∧ h' = h ∧ db' = db)).
Proof.
  unfold HabitViewSet.archive.
  destruct (HabitViewSet.get_object db user ActArchive query_params pk)
    as [h | e]; [| discriminate].
  rewrite bind_Ok. intros Heq. exists h. split; [reflexivity |].
  destruct (habit_archived_at h) eqn:Ha; injection Heq as <- <-.
  - right. split; [discriminate | auto].
  - left. auto.
Qed.

Lemma unarchive_inv now db user query_params pk h' db' :
  HabitViewSet.unarchive now db user query_params pk = Ok (h', db') →
  ∃ h, HabitViewSet.get_object db user ActUnarchive query_params pk = Ok h ∧
       ((habit_archived_at h ≠ None ∧
         h' = set_updated_at now (set_archived_at None h) ∧
         db' = store_habit h' db) ∨
        (habit_archived_at h = None ∧ h' = h ∧ db' = db)).
Proof.
  unfold HabitViewSet.unarchive.
  destruct (HabitViewSet.get_object db user ActUnarchive query_params pk)
    as [h | e]; [| discriminate].
  rewrite bind_Ok. intros Heq. exists h. split; [reflexivity |].
  destruct (habit_archived_at h) eqn:Ha; injection Heq as <- <-.
  - left. split; [discriminate | auto].
  - right. auto.
Qed.

(** X4: archive and unarchive change nothing but the habit they are
    called on: the entries, the number of habits and every habit of
    another id are as before, and the habit they answer with holds what
    the habit looked up held, the two server stamps apart. *)
Theorem archive_touches_one_habit (db : DB) (user : Z)
    (query_params : QueryDict.t) (pk : Z) (h' : Habit) (db' : DB) :
  (∃ now, HabitViewSet.archive now db user query_params pk = Ok (h', db')) ∨
  (∃ now, HabitViewSet.unarchive now db user query_params pk
          = Ok (h', db')) →
  habit_frame pk db db' ∧
  ∃ h, In h (habits db) ∧ habit_id h = pk ∧ habit_user h = user ∧
       habit_content h' = habit_content h.
Proof.
  intros [[now Harch] | [now Hun]].
  - apply archive_inv in Harch as (h & Hget & Hcase).
    apply get_object_inv in Hget as (Hin & Hu & Hid); [| reflexivity].
    destruct Hcase as [(Ha & -> & ->) | (Ha & -> & ->)].
    + split.
      * rewrite <- Hid.
        apply (store_habit_frame
                 (set_updated_at now (set_archived_at (Some now) h))).
        eauto.
      * exists h. auto.
    + split; [apply habit_frame_refl |]. exists h. auto.
  - apply unarchive_inv in Hun as (h & Hget & Hcase).
    apply get_object_inv in Hget as (Hin & Hu & Hid); [| reflexivity].
    destruct Hcase as [(Ha & -> & ->) | (Ha & -> & ->)].
    + split.
      * rewrite <- Hid.
        apply (store_habit_frame
                 (set_updated_at now (set_archived_at None h))).
        eauto.
      * exists h. auto.
    + split; [apply habit_frame_refl |]. exists h. auto.
Qed.

Lemma archive_touches_one_habit_witness :
  habit_frame 1 Ex.db
    (store_habit (set_updated_at 50 (set_archived_at (Some 50) Ex.run)) Ex.db) ∧
  ∃ h, In h (habits Ex.db) ∧ habit_id h = 1 ∧ habit_user h = 7 ∧
       habit_content (set_updated_at 50 (set_archived_at (Some 50) Ex.run))
       = habit_content h.
Proof.
  apply (archive_touches_one_habit Ex.db 7 [] 1).
  left. exists 50. reflexivity.
Defined.

(** X5: on an id under which the caller has no habit, archive and
    unarchive answer [Http404] and return no database: nothing is
    written. *)
Theorem archive_not_found (now : Z) (db : DB) (user : Z)
    (query_params : QueryDict.t) (pk : Z) :
  (∀ h, In h (habits db) → habit_user h = user → habit_id h ≠ pk) →
  HabitViewSet.archive now db user query_params pk = Raise Http404 ∧
  HabitViewSet.unarchive now db user query_params pk = Raise Http404.
Proof.
  intros Hnone. unfold HabitViewSet.archive, HabitViewSet.unarchive.
  rewrite (proj2 (get_object_404_iff db user ActArchive query_params pk
                    eq_refl) Hnone).
  rewrite (proj2 (get_object_404_iff db user ActUnarchive query_params pk
                    eq_refl) Hnone).
  split; reflexivity.
Qed.

Lemma archive_not_found_witness :
  HabitViewSet.archive 50 Ex.db 7 [] 3 = Raise Http404 ∧
  HabitViewSet.unarchive 50 Ex.db 7 [] 3 = Raise Http404.
Proof.
  apply (archive_not_found 50 Ex.db 7 [] 3).
  intros h Hin Hu. simpl in Hin.
  destruct Hin as [<- | [<- | [<- | []]]]; simpl in *; lia.
Defined.

(** X6: unarchive is idempotent: called again, at any later time, on the
    database it returned, it answers with the same habit and leaves that
    database as it is. *)
Theorem unarchive_twice (now later : Z) (db : DB) (user : Z)
    (query_params : QueryDict.t) (pk : Z) (h1 : Habit) (db1 : DB) :
  HabitViewSet.unarchive now db user query_params pk = Ok (h1, db1) →
  HabitViewSet.unarchive later db1 user query_params pk = Ok (h1, db1).
Proof.
  intros Hun. apply unarchive_inv in Hun as (h & Hget & Hcase).
  assert (HabitViewSet.get_object db1 user ActUnarchive query_params pk
          = Ok h1 ∧ habit_archived_at h1 = None) as [Hget1 Ha1].
  { destruct Hcase as [(Ha & -> & ->) | (Ha & -> & ->)].
    - split; [| reflexivity].
      apply get_object_inv in Hget as Hinv; [| reflexivity].
      eapply get_object_save; eauto; simpl; tauto.
    - auto. }
  unfold HabitViewSet.unarchive. rewrite Hget1, bind_Ok. now rewrite Ha1.
Qed.

Lemma unarchive_twice_witness :
  HabitViewSet.unarchive 70
    (store_habit (set_updated_at 60 (set_archived_at None Ex.read)) Ex.db)
    7 [] 2
  = Ok (set_updated_at 60 (set_archived_at None Ex.read),
        store_habit (set_updated_at 60 (set_archived_at None Ex.read)) Ex.db).
Proof.
  apply (unarchive_twice 60 70 Ex.db 7 [] 2). reflexivity.
Defined.

(** ** The habit lists, and archiving seen through them *)

Lemma in_list_archived db user query_params p h :
  QueryDict.get query_params "archived" = Some p →
  Py.lower p = "true" ∨ Py.lower p = "1" →
  In h (HabitViewSet.get_queryset db user ActList query_params) ↔
  (In h (habits db) ∧ habit_user h = user) ∧ habit_archived_at h ≠ None.
Proof.
  intros Hget Hp. unfold HabitViewSet.get_queryset. simpl is_list. cbv iota.
  fold (own_habits db user). rewrite Hget, (proj1 (archived_yes p) Hp).
  now rewrite in_order_by, filter_In, in_own_habits, isnull_false.
Qed.

Lemma in_list_default db user query_params h :
  QueryDict.get query_params "archived" = None →
  In h (HabitViewSet.get_queryset db user ActList query_params) ↔
  (In h (habits db) ∧ habit_user h = user) ∧ habit_archived_at h = None.
Proof.
  intros Hget. unfold HabitViewSet.get_queryset. simpl is_list. cbv iota.
  fold (own_habits db user). rewrite Hget.
  now rewrite in_order_by, filter_In, in_own_habits, isnull_true.
Qed.

Lemma isnull_partition (l : list Habit) :
  Permutation l
    (List.filter (QuerySet.archived_at__isnull true) l
     ++ List.filter (QuerySet.archived_at__isnull false) l).
Proof.
  induction l as [| x l IH]; simpl; [constructor |].
  assert (QuerySet.archived_at__isnull false x
          = negb (QuerySet.archived_at__isnull true x)) as ->.
  { unfold QuerySet.archived_at__isnull. now destruct (habit_archived_at x). }
  destruct (QuerySet.archived_at__isnull true x); simpl.
  - now constructor.
  - now apply Permutation_cons_app.
Qed.

(** X7: the list with [archived=false] (or [0]) and the list with
    [archived=true] (or [1]) together hold each habit of the caller once:
    they are a rearrangement of the habits that the single-object
    operations see. Without the parameter the list is the one of
    [archived=false]. *)
Theorem habit_lists_partition (db : DB) (user : Z)
    (yes no : QueryDict.t) (t f : string) :
  QueryDict.get yes "archived" = Some t →
  Py.lower t = "true" ∨ Py.lower t = "1" →
  QueryDict.get no "archived" = Some f →
  Py.lower f = "false" ∨ Py.lower f = "0" →
  Permutation (HabitViewSet.get_queryset db user ActRetrieve [])
              (HabitViewSet.get_queryset db user ActList no
               ++ HabitViewSet.get_queryset db user ActList yes) ∧
  (∀ query_params,
     QueryDict.get query_params "archived" = None →
     HabitViewSet.get_queryset db user ActList query_params
     = HabitViewSet.get_queryset db user ActList no).
Proof.
  intros Hyes Ht Hno Hf.
  unfold HabitViewSet.get_queryset. simpl is_list. cbv iota.
  fold (own_habits db user).
  rewrite Hyes, Hno, (proj1 (archived_yes t) Ht).
  destruct (proj1 (archived_no f) Hf) as [-> ->].
  split.
  - rewrite order_by_perm.
    rewrite (order_by_perm QuerySet.by_name
               (List.filter (QuerySet.archived_at__isnull true) _)).
    rewrite (order_by_perm QuerySet.by_name
               (List.filter (QuerySet.archived_at__isnull false) _)).
    apply isnull_partition.
  - intros query_params ->. reflexivity.
Qed.

Lemma habit_lists_partition_witness :
  Permutation (HabitViewSet.get_queryset Ex.db 7 ActRetrieve [])
              (HabitViewSet.get_queryset Ex.db 7 ActList [("archived", "0")]
               ++ HabitViewSet.get_queryset Ex.db 7 ActList
                    [("archived", "TRUE")]).
Proof.
  apply (habit_lists_partition Ex.db 7 [("archived", "TRUE")]
           [("archived", "0")] "TRUE" "0");
    first [reflexivity | left; reflexivity | right; reflexivity].
Defined.

Lemma pk_unique (l : list Habit) (a b : Habit) :
  NoDup (List.map habit_id l) → In a l → In b l →
  habit_id a = habit_id b → a = b.
Proof.
  intros Hnd Ha Hb Hid.
  pose proof (find_pk_unique l a Hnd Ha) as H1.
  pose proof (find_pk_unique l b Hnd Hb) as H2.
  rewrite Hid in H1. congruence.
Qed.

Lemma after_archive now db user query_params pk h' db' :
  NoDup (List.map habit_id (habits db)) →
  HabitViewSet.archive now db user query_params pk = Ok (h', db') →
  In h' (habits db') ∧ habit_user h' = user ∧ habit_id h' = pk ∧
  habit_archived_at h' ≠ None ∧
  ∀ r, In r (habits db') → habit_id r = pk → r = h'.
Proof.
  intros Hnd Harch. apply archive_inv in Harch as (h & Hget & Hcase).
  apply get_object_inv in Hget as (Hin & Hu & Hid); [| reflexivity].
  destruct Hcase as [(Ha & -> & ->) | (Ha & -> & ->)].
  - destruct (store_habit_present
                (set_updated_at now (set_archived_at (Some now) h)) db)
      as [Hh _]; [eauto |].
    destruct (store_habit_frame
                (set_updated_at now (set_archived_at (Some now) h)) db)
      as [_ Hall]; [eauto |].
    repeat split; try assumption; try discriminate.
    + rewrite Hh. apply in_map_iff. exists h. split; [| assumption].
      simpl. now rewrite Z.eqb_refl.
    + intros r Hr Hrid. apply Hall; [assumption |]. simpl. congruence.
  - repeat split; try assumption.
    intros r Hr Hrid. apply (pk_unique (habits db)); congruence.
Qed.

Lemma after_unarchive now db user query_params pk h' db' :
  NoDup (List.map habit_id (habits db)) →
  HabitViewSet.unarchive now db user query_params pk = Ok (h', db') →
  In h' (habits db') ∧ habit_user h' = user ∧ habit_id h' = pk ∧
  habit_archived_at h' = None ∧
  ∀ r, In r (habits db') → habit_id r = pk → r = h'.
Proof.
  intros Hnd Hun. apply unarchive_inv in Hun as (h & Hget & Hcase).
  apply get_object_inv in Hget as (Hin & Hu & Hid); [| reflexivity].
  destruct Hcase as [(Ha & -> & ->) | (Ha & -> & ->)].
  - destruct (store_habit_present
                (set_updated_at now (set_archived_at None h)) db)
      as [Hh _]; [eauto |].
    destruct (store_habit_frame
                (set_updated_at now (set_archived_at None h)) db)
      as [_ Hall]; [eauto |].
    repeat split; try assumption.
    + rewrite Hh. apply in_map_iff. exists h. split; [| assumption].
      simpl. now rewrite Z.eqb_refl.
    + intros r Hr Hrid. apply Hall; [assumption |]. simpl. congruence.
  - repeat split; try assumption.
    intros r Hr Hrid. apply (pk_unique (habits db)); congruence.
Qed.

(** X8: primary keys being unique, a habit that has been archived is in
    the list of archived habits and no longer in the default list, and a
    habit that has been unarchived is in the default list and no longer
    among the archived ones. *)
Theorem archive_moves_between_lists (db : DB) (user : Z)
    (query_params : QueryDict.t) (pk : Z) (h' : Habit) (db' : DB)
    (default yes : QueryDict.t) (t : string) :
  NoDup (List.map habit_id (habits db)) →
  QueryDict.get default "archived" = None →
  QueryDict.get yes "archived" = Some t →
  Py.lower t = "true" ∨ Py.lower t = "1" →
  ((∃ now, HabitViewSet.archive now db user query_params pk = Ok (h', db')) →
   In h' (HabitViewSet.get_queryset db' user ActList yes) ∧
   ∀ r, In r (HabitViewSet.get_queryset db' user ActList default) →
        habit_id r ≠ pk) ∧
  ((∃ now, HabitViewSet.unarchive now db user query_params pk
           = Ok (h', db')) →
   In h' (HabitViewSet.get_queryset db' user ActList default) ∧
   ∀ r, In r (HabitViewSet.get_queryset db' user ActList yes) →
        habit_id r ≠ pk).
Proof.
  intros Hnd Hdef Hyes Ht. split.
  - intros [now Harch].
    destruct (after_archive now db user query_params pk h' db' Hnd Harch)
      as (Hin & Hu & Hid & Ha & Hall).
    split.
    + apply (in_list_archived db' user yes t); auto.
    + intros r Hr Hrid.
      apply (in_list_default db' user default) in Hr as [[Hrin _] Hra];
        [| assumption].
      apply Ha. now rewrite <- (Hall r Hrin Hrid).
  - intros [now Hun].
    destruct (after_unarchive now db user query_params pk h' db' Hnd Hun)
      as (Hin & Hu & Hid & Ha & Hall).
    split.
    + apply (in_list_default db' user default); auto.
    + intros r Hr Hrid.
      apply (in_list_archived db' user yes t) in Hr as [[Hrin _] Hra];
        [| assumption ..].
      apply Hra. now rewrite (Hall r Hrin Hrid).
Qed.

Lemma archive_moves_between_lists_witness :
  In (set_updated_at 50 (set_archived_at (Some 50) Ex.run))
     (HabitViewSet.get_queryset
        (store_habit (set_updated_at 50 (set_archived_at (Some 50) Ex.run)) Ex.db) 7 ActList
        [("archived", "true")]) ∧
  ∀ r, In r (HabitViewSet.get_queryset
               (store_habit (set_updated_at 50 (set_archived_at (Some 50) Ex.run)) Ex.db) 7
               ActList []) →
       habit_id r ≠ 1.
Proof.
  apply (archive_moves_between_lists Ex.db 7 [] 1
           (set_updated_at 50 (set_archived_at (Some 50) Ex.run))
           (store_habit (set_updated_at 50 (set_archived_at (Some 50) Ex.run)) Ex.db)
           [] [("archived", "true")] "true").
  - simpl. repeat constructor; simpl; intuition discriminate.
  - reflexivity.
  - reflexivity.
  - left. reflexivity.
  - exists 50. reflexivity.
Defined.

(** X9: primary keys being unique, once a habit is archived no entry can
    be created against it: whatever the value, the create fails with the
    archived error on the field [habit]. *)
Theorem archived_habit_takes_no_entry (now later : Z) (db : DB) (user : Z)
    (query_params : QueryDict.t) (pk : Z) (h' : Habit) (db' : DB)
    (data : gmap string pyval) (h : Habit) (v : Z) :
  NoDup (List.map habit_id (habits db)) →
  HabitViewSet.archive now db user query_params pk = Ok (h', db') →
  entry_payload db' user false data (Some h) (Some v) →
  habit_id h = pk →
  HabitEntryViewSet.create later db' user data
  = Raise (FieldErrors [("habit", archived_message)]).
Proof.
  intros Hnd Harch Hp Hid.
  destruct (after_archive now db user query_params pk h' db' Hnd Harch)
    as (_ & Hu & _ & Ha & Hall).
  assert (h = h') as ->.
  { destruct Hp as [(pk' & _ & Hget) _ _ _ _].
    apply get_pk_some in Hget as [Hin _]. now apply Hall. }
  apply (entry_create_field_error later db' user data h' v); [assumption |].
  rewrite Hu, Z.eqb_refl. simpl. now rewrite bool_decide_eq_false_2.
Qed.

Lemma run_entry_payload_archived :
  entry_payload (store_habit (set_updated_at 50 (set_archived_at (Some 50) Ex.run)) Ex.db) 7 false
    Ex.run_entry (Some (set_updated_at 50 (set_archived_at (Some 50) Ex.run))) (Some 1).
Proof.
  constructor.
  - exists 1. split; reflexivity.
  - reflexivity.
  - unfold accepted. simpl. eexists. reflexivity.
  - reflexivity.
  - intros _. split; eexists; reflexivity.
Defined.

Lemma archived_habit_takes_no_entry_witness :
  HabitEntryViewSet.create 60
    (store_habit (set_updated_at 50 (set_archived_at (Some 50) Ex.run)) Ex.db) 7 Ex.run_entry
  = Raise (FieldErrors [("habit", archived_message)]).
Proof.
  apply (archived_habit_takes_no_entry 50 60 Ex.db 7 [] 1
           (set_updated_at 50 (set_archived_at (Some 50) Ex.run))
           (store_habit (set_updated_at 50 (set_archived_at (Some 50) Ex.run)) Ex.db)
           Ex.run_entry (set_updated_at 50 (set_archived_at (Some 50) Ex.run)) 1).
  - simpl. repeat constructor; simpl; intuition discriminate.
  - reflexivity.
  - exact run_entry_payload_archived.
  - reflexivity.
Defined.

(** ** Habit writes: the read-only fields *)

Lemma habit_validation_ignores name_validators key v partial data :
  In key ("id" :: HabitSerializer.Meta_read_only_fields) →
  HabitSerializer.run_validation name_validators partial (<[key := v]> data)
  = HabitSerializer.run_validation name_validators partial data.
Proof.
  intros Hkey. unfold HabitSerializer.run_validation, to_internal_value.
  rewrite (run_fields_ext _ partial (<[key := v]> data) data);
    [reflexivity |].
  intros f Hf. apply lookup_insert_ne.
  apply habit_fields_names in Hf as [_ Hf]. simpl in Hkey, Hf.
  intuition (subst; congruence).
Qed.

Lemma habit_validated_no_user name_validators partial data validated_data :
  HabitSerializer.run_validation name_validators partial data
  = Ok validated_data →
  validated_data !! "user" = None.
Proof.
  unfold HabitSerializer.run_validation. intros Hto.
  apply to_internal_value_ok in Hto as ->;
    [| apply habit_fields_validation_only].
  rewrite foldl_field_value_other; [apply lookup_empty |].
  unfold HabitSerializer.fields. rewrite habit_writable. simpl.
  intuition discriminate.
Qed.

(** X10: a created habit belongs to the requesting user, and an updated
    habit keeps its id and its owner; the fields [id], [user],
    [created_at] and [updated_at] of a payload are not read, neither by
    create nor by update. *)
Theorem habit_owner_forced :
  (∀ name_validators now db user data h db',
     HabitViewSet.create name_validators now db user data = Ok (h, db') →
     habit_user h = user ∧ In h (habits db')) ∧
  (∀ name_validators now db user partial query_params pk data h db',
     HabitViewSet.update name_validators now db user partial query_params pk
       data = Ok (h, db') →
     habit_user h = user ∧ habit_id h = pk) ∧
  (∀ key v name_validators now db user partial query_params pk data,
     In key ("id" :: HabitSerializer.Meta_read_only_fields) →
     HabitViewSet.create name_validators now db user (<[key := v]> data)
     = HabitViewSet.create name_validators now db user data ∧
     HabitViewSet.update name_validators now db user partial query_params pk
       (<[key := v]> data)
     = HabitViewSet.update name_validators now db user partial query_params
         pk data).
Proof.
  split; [| split].
  - intros name_validators now db user data h db'.
    unfold HabitViewSet.create.
    destruct (HabitSerializer.run_validation name_validators false data)
      as [vd | e]; [| discriminate].
    rewrite bind_Ok. unfold HabitSerializer.create.
    rewrite lookup_insert_eq.
    destruct (_ !! "name") as [[] |]; try discriminate.
    destruct (_ !! "type") as [[] |]; try discriminate.
    intros [= <- <-]. simpl. split; [reflexivity |].
    apply in_or_app. right. now left.
  - intros name_validators now db user partial query_params pk data h db'.
    unfold HabitViewSet.update.
    destruct (HabitViewSet.get_object db user _ query_params pk)
      as [instance | e] eqn:Hget; [| discriminate].
    rewrite bind_Ok.
    destruct (HabitSerializer.run_validation name_validators partial data)
      as [vd | e] eqn:Hrun; [| discriminate].
    rewrite bind_Ok. apply habit_validated_no_user in Hrun.
    unfold HabitSerializer.update, save_habit. rewrite Hrun.
    intros [= <- _]. simpl.
    apply get_object_inv in Hget; [tauto | now destruct partial].
  - intros key v name_validators now db user partial query_params pk data
      Hkey.
    unfold HabitViewSet.create, HabitViewSet.update.
    now rewrite !habit_validation_ignores.
Qed.

Lemma habit_owner_forced_witness :
  HabitViewSet.create (fun _ => None) 50 Ex.db 7
    (<["user" := PUser 8]> Ex.walk_habit)
  = HabitViewSet.create (fun _ => None) 50 Ex.db 7 Ex.walk_habit.
Proof.
  destruct habit_owner_forced as (_ & _ & H).
  apply (H "user" (PUser 8) (fun _ => None) 50 Ex.db 7 false [] 0
           Ex.walk_habit).
  simpl. tauto.
Defined.

(** ** Deleting a habit *)

Section habit_destroy.

Variable on_delete : Z → list HabitEntry → result (list HabitEntry).

(** X11: a destroy that succeeds removed a habit of the caller: the rows
    of that id are gone, every other habit is kept, and a later
    single-object lookup of the id answers [Http404]. On an id under
    which the caller has no habit, destroy answers [Http404] and returns
    no database. *)
Theorem habit_destroy (db : DB) (user : Z) (query_params : QueryDict.t)
    (pk : Z) :
  (∀ db', HabitViewSet.destroy on_delete db user query_params pk = Ok db' →
     (∃ h, In h (habits db) ∧ habit_user h = user ∧ habit_id h = pk) ∧
     (∀ r, In r (habits db') ↔ In r (habits db) ∧ habit_id r ≠ pk) ∧
     (∀ act query_params', is_list act = false →
        HabitViewSet.get_object db' user act query_params' pk
        = Raise Http404)) ∧
  ((∀ h, In h (habits db) → habit_user h = user → habit_id h ≠ pk) →
   HabitViewSet.destroy on_delete db user query_params pk = Raise Http404).
Proof.
  split.
  - intros db'. unfold HabitViewSet.destroy.
    destruct (HabitViewSet.get_object db user ActDestroy query_params pk)
      as [h | e] eqn:Hget; [| discriminate].
    rewrite bind_Ok. unfold HabitViewSet.perform_destroy.
    destruct (on_delete (habit_id h) (entries db)) as [es | e]; [| discriminate].
    rewrite bind_Ok. intros [= <-].
    apply get_object_inv in Hget as (Hin & Hu & Hid); [| reflexivity].
    assert (∀ r, In r (List.filter (fun r => negb (habit_id r =? habit_id h))
                                   (habits db))
                 ↔ In r (habits db) ∧ habit_id r ≠ pk) as Hrows.
    { intros r. rewrite filter_In, Bool.negb_true_iff, Z.eqb_neq.
      now rewrite Hid. }
    split; [eauto |]. split; [exact Hrows |].
    intros act query_params' Hact. apply get_object_404_iff; [assumption |].
    intros r Hr _. simpl in Hr. now apply Hrows in Hr.
  - intros Hnone. unfold HabitViewSet.destroy.
    now rewrite (proj2 (get_object_404_iff db user ActDestroy query_params pk
                          eq_refl) Hnone).
Qed.

End habit_destroy.

Lemma habit_destroy_witness :
  HabitViewSet.destroy
    (fun pk es => Ok (List.filter (fun e => negb (entry_habit e =? pk)) es))
    Ex.db 7 [] 3
  = Raise Http404.
Proof.
  apply (habit_destroy _ Ex.db 7 [] 3).
  intros h Hin Hu. simpl in Hin.
  destruct Hin as [<- | [<- | [<- | []]]]; simpl in *; lia.
Defined.

(** ** The entry list: scope, empty and ill-formed parameters *)

Section entry_list_edges.

Variable int : string → option Z.
Variable to_date : string → option Z.

Lemma date_filter_incl keep raw queryset queryset' :
  HabitEntryViewSet.date_filter to_date keep raw queryset = Ok queryset' →
  ∀ e, In e queryset' → In e queryset.
Proof.
  unfold HabitEntryViewSet.date_filter.
  destruct raw as [s |]; [| now intros [= <-]].
  destruct (Py.truthy s); [| now intros [= <-]].
  destruct (to_date s); [| discriminate].
  intros [= <-] e He. now apply filter_In in He.
Qed.

Lemma date_filter_outcome keep raw queryset :
  (∃ queryset', HabitEntryViewSet.date_filter to_date keep raw queryset
                = Ok queryset') ∨
  (∃ s, HabitEntryViewSet.date_filter to_date keep raw queryset
        = Raise (LookupValueError s)).
Proof.
  unfold HabitEntryViewSet.date_filter.
  destruct raw as [s |]; [| eauto].
  destruct (Py.truthy s); [| eauto].
  destruct (to_date s); eauto.
Qed.

Lemma date_filter_ill_formed keep s queryset :
  s ≠ "" → to_date s = None →
  HabitEntryViewSet.date_filter to_date keep (Some s) queryset
  = Raise (LookupValueError s).
Proof.
  intros Hs Hd. unfold HabitEntryViewSet.date_filter.
  now rewrite truthy_nonempty, Hd.
Qed.

Lemma entry_queryset_in db user query_params l e :
  HabitEntryViewSet.get_queryset int to_date db user query_params = Ok l →
  In e l → In e (entries db) ∧ entry_user e = user.
Proof.
  unfold HabitEntryViewSet.get_queryset.
  set (q0 := match QueryDict.get query_params "habit_id" with
             | Some s => _
             | None => _
             end).
  assert (∀ x, In x q0 → In x (entries db) ∧ entry_user x = user) as H0.
  { intros x Hx. subst q0.
    assert (In x (List.filter (fun e => entry_user e =? user) (entries db)))
      as Hx'.
    { destruct (QueryDict.get query_params "habit_id") as [s |];
        [| assumption].
      destruct (Py.truthy s); [| assumption].
      destruct (int s); [now apply filter_In in Hx | assumption]. }
    apply filter_In in Hx' as [? ?]. split; [assumption | lia]. }
  destruct (HabitEntryViewSet.date_filter to_date Z.geb _ q0) as [q1 | ?]
    eqn:H1; [| discriminate].
  rewrite bind_Ok.
  destruct (HabitEntryViewSet.date_filter to_date Z.leb _ q1) as [q2 | ?]
    eqn:H2; [| discriminate].
  rewrite bind_Ok.
  destruct (HabitEntryViewSet.date_filter to_date Z.eqb _ q2) as [q3 | ?]
    eqn:H3; [| discriminate].
  rewrite bind_Ok. intros [= <-] Hin. apply in_order_by in Hin.
  apply H0.
  eapply date_filter_incl; [exact H1 |].
  eapply date_filter_incl; [exact H2 |].
  eapply date_filter_incl; [exact H3 | assumption].
Qed.

(** X12: whatever the query string, an entry that the entry list yields
    is a row of the table and belongs to the requesting user. *)
Theorem entry_queryset_own (db : DB) (user : Z) (query_params : QueryDict.t)
    (l : list HabitEntry) (e : HabitEntry) :
  HabitEntryViewSet.get_queryset int to_date db user query_params = Ok l →
  In e l → In e (entries db) ∧ entry_user e = user.
Proof. apply entry_queryset_in. Qed.

(** X13: a filter given with an empty value is no filter: the request
    is answered as the same request without that parameter. *)
Theorem empty_parameter_ignored (db : DB) (user : Z)
    (query_params : QueryDict.t) (key : string) :
  In key ["habit_id"; "start_date"; "end_date"; "date"] →
  QueryDict.get query_params key = Some "" →
  HabitEntryViewSet.get_queryset int to_date db user query_params
  = HabitEntryViewSet.get_queryset int to_date db user
      (QueryDict.without key query_params).
Proof.
  intros Hkey Hget. unfold HabitEntryViewSet.get_queryset.
  rewrite !QueryDict_get_without.
  simpl in Hkey. destruct Hkey as [<- | [<- | [<- | [<- | []]]]];
    simpl; rewrite Hget; reflexivity.
Qed.

(** X14: an ill-formed date is not passed over the way an ill-formed
    [habit_id] is: when [start_date], [end_date] or [date] is given, not
    empty, and is no date, the list fails with the error of the lookup
    value. *)
Theorem ill_formed_date_fails (db : DB) (user : Z)
    (query_params : QueryDict.t) (key s : string) :
  In key ["start_date"; "end_date"; "date"] →
  QueryDict.get query_params key = Some s →
  s ≠ "" → to_date s = None →
  ∃ s', HabitEntryViewSet.get_queryset int to_date db user query_params
        = Raise (LookupValueError s').
Proof.
  intros Hkey Hget Hs Hd. unfold HabitEntryViewSet.get_queryset.
  set (q0 := match QueryDict.get query_params "habit_id" with
             | Some s => _
             | None => _
             end).
  simpl in Hkey. destruct Hkey as [<- | [<- | [<- | []]]]; rewrite Hget.
  - rewrite date_filter_ill_formed by assumption. eauto.
  - destruct (date_filter_outcome Z.geb
                (QueryDict.get query_params "start_date") q0)
      as [[q1 ->] | [s' ->]]; [| eauto].
    rewrite bind_Ok, date_filter_ill_formed by assumption. eauto.
  - destruct (date_filter_outcome Z.geb
                (QueryDict.get query_params "start_date") q0)
      as [[q1 ->] | [s' ->]]; [| eauto].
    rewrite bind_Ok.
    destruct (date_filter_outcome Z.leb
                (QueryDict.get query_params "end_date") q1)
      as [[q2 ->] | [s' ->]]; [| eauto].
    rewrite bind_Ok, date_filter_ill_formed by assumption. eauto.
Qed.

Lemma filter_none {A : Type} (p : A → bool) (l : list A) :
  (∀ x, In x l → p x = false) → List.filter p l = [].
Proof.
  induction l as [| x l IH]; simpl; intros H; [reflexivity |].
  rewrite (H x) by now left. apply IH. intros y Hy. apply H. now right.
Qed.

(** X15: filters that no date can meet give the empty list, not an
    error: a [start_date] after the [end_date], or a [date] outside the
    range they bound. *)
Theorem contradictory_dates_empty (db : DB) (user : Z)
    (query_params : QueryDict.t) (hid sd ed dd : option Z) :
  asks int (QueryDict.get query_params "habit_id") hid →
  asks to_date (QueryDict.get query_params "start_date") sd →
  asks to_date (QueryDict.get query_params "end_date") ed →
  asks to_date (QueryDict.get query_params "date") dd →
  (∃ a b, sd = Some a ∧ ed = Some b ∧ b < a) ∨
  (∃ a d, sd = Some a ∧ dd = Some d ∧ d < a) ∨
  (∃ b d, ed = Some b ∧ dd = Some d ∧ b < d) →
  HabitEntryViewSet.get_queryset int to_date db user query_params = Ok [].
Proof.
  intros Hh Hs He Hd Hcontra.
  rewrite (get_queryset_asks int to_date db user query_params hid sd ed dd)
    by assumption.
  rewrite filter_none; [reflexivity |].
  intros e _. apply Bool.not_true_iff_false. intros Hsel.
  apply selected_spec in Hsel as (_ & _ & Hsd & Hed & Hdd).
  destruct Hcontra as [(a & b & -> & -> & Hlt)
                      | [(a & d & -> & -> & Hlt) | (b & d & -> & -> & Hlt)]].
  - specialize (Hsd a eq_refl). specialize (Hed b eq_refl). lia.
  - specialize (Hsd a eq_refl). specialize (Hdd d eq_refl). lia.
  - specialize (Hed b eq_refl). specialize (Hdd d eq_refl). lia.
Qed.

Lemma find_entry_unique (l : list HabitEntry) (e : HabitEntry) :
  NoDup (List.map entry_id l) → In e l →
  List.find (fun x => entry_id x =? entry_id e) l = Some e.
Proof.
  induction l as [| x l IH]; simpl; intros Hnd Hin; [contradiction |].
  inversion Hnd as [| ? ? Hx Hl]; subst.
  destruct Hin as [-> | Hin].
  - now rewrite Z.eqb_refl.
  - destruct (Z.eqb_spec (entry_id x) (entry_id e)) as [Heq | _]; [| auto].
    exfalso. apply Hx. rewrite Heq. now apply in_map.
Qed.

Lemma NoDup_map_filter {A : Type} (key : A → Z) (p : A → bool) (l : list A) :
  NoDup (List.map key l) → NoDup (List.map key (List.filter p l)).
Proof.
  induction l as [| x l IH]; simpl; intros Hnd; [constructor |].
  inversion Hnd as [| ? ? Hx Hl]; subst.
  destruct (p x); [| auto]. simpl. constructor; [| auto].
  intros Hc. apply Hx. apply in_map_iff in Hc as (y & Hy & Hc).
  apply filter_In in Hc as [Hc _]. apply in_map_iff. eauto.
Qed.

(** X16: the filters of the query string apply to the single-object
    lookup of an entry as well. Primary keys being unique, an entry of
    the caller is found by its id when it meets every filter given, and
    is answered [Http404] when it does not. *)
Theorem entry_lookup_filtered (db : DB) (user : Z)
    (query_params : QueryDict.t) (hid sd ed dd : option Z) (e : HabitEntry) :
  asks int (QueryDict.get query_params "habit_id") hid →
  asks to_date (QueryDict.get query_params "start_date") sd →
  asks to_date (QueryDict.get query_params "end_date") ed →
  asks to_date (QueryDict.get query_params "date") dd →
  NoDup (List.map entry_id (entries db)) →
  In e (entries db) → entry_user e = user →
  HabitEntryViewSet.get_object int to_date db user query_params (entry_id e)
  = if selected user hid sd ed dd e then Ok e else Raise Http404.
Proof.
  intros Hh Hs He Hd Hnd Hin Hu. unfold HabitEntryViewSet.get_object.
  rewrite (get_queryset_asks int to_date db user query_params hid sd ed dd)
    by assumption.
  rewrite bind_Ok.
  destruct (selected user hid sd ed dd e) eqn:Hsel.
  - rewrite find_entry_unique.
    + unfold IsOwner.has_object_permission. now rewrite Hu, Z.eqb_refl.
    + eapply Permutation_NoDup.
      * apply Permutation_map. symmetry. apply order_by_perm.
      * now apply NoDup_map_filter.
    + apply in_order_by, filter_In. auto.
  - destruct (List.find _ _) as [x |] eqn:Hfind; [| reflexivity].
    apply find_some in Hfind as [Hx Hid].
    apply in_order_by, filter_In in Hx as [Hx Hselx].
    assert (x = e) as ->; [| congruence].
    pose proof (find_entry_unique (entries db) x Hnd Hx) as H1.
    pose proof (find_entry_unique (entries db) e Hnd Hin) as H2.
    replace (entry_id x) with (entry_id e) in H1 by lia. congruence.
Qed.

(** X17: a destroy of an entry that succeeds removed an entry of the
    caller and nothing else: the habits are untouched and every entry of
    another id is kept. *)
Theorem entry_destroy (db : DB) (user : Z) (query_params : QueryDict.t)
    (pk : Z) (db' : DB) :
  HabitEntryViewSet.destroy int to_date db user query_params pk = Ok db' →
  habits db' = habits db ∧
  (∃ e, In e (entries db) ∧ entry_user e = user ∧ entry_id e = pk) ∧
  (∀ r, In r (entries db') ↔ In r (entries db) ∧ entry_id r ≠ pk).
Proof.
  unfold HabitEntryViewSet.destroy, HabitEntryViewSet.get_object.
  destruct (HabitEntryViewSet.get_queryset int to_date db user query_params)
    as [l | err] eqn:Hq; [| discriminate].
  rewrite bind_Ok.
  destruct (List.find _ l) as [obj |] eqn:Hfind; [| discriminate].
  destruct (IsOwner.has_object_permission _ _); [| discriminate].
  rewrite bind_Ok. intros [= <-].
  apply find_some in Hfind as [Hobj Hid].
  apply (entry_queryset_in db user query_params l obj Hq) in Hobj
    as [Hin Hu].
  split; [reflexivity |]. split.
  - exists obj. split; [assumption |]. split; [assumption | lia].
  - intros r. simpl. rewrite filter_In, Bool.negb_true_iff, Z.eqb_neq.
    assert (entry_id obj = pk) as -> by lia. reflexivity.
Qed.

End entry_list_edges.

Lemma entry_queryset_own_witness :
  In Ex.e2 (entries Ex.db) ∧ entry_user Ex.e2 = 7.
Proof.
  apply (entry_queryset_own decimal decimal Ex.db 7 [("habit_id", "2")]
           [Ex.e2] Ex.e2); [reflexivity | now left].
Defined.

Lemma empty_parameter_ignored_witness :
  HabitEntryViewSet.get_queryset decimal decimal Ex.db 7
    [("start_date", ""); ("habit_id", "1")]
  = HabitEntryViewSet.get_queryset decimal decimal Ex.db 7
      (QueryDict.without "start_date" [("start_date", ""); ("habit_id", "1")]).
Proof.
  apply (empty_parameter_ignored decimal decimal Ex.db 7
           [("start_date", ""); ("habit_id", "1")] "start_date");
    [simpl; tauto | reflexivity].
Defined.

Lemma ill_formed_date_fails_witness :
  ∃ s', HabitEntryViewSet.get_queryset decimal decimal Ex.db 7
          [("habit_id", "x"); ("end_date", "soon")]
        = Raise (LookupValueError s').
Proof.
  apply (ill_formed_date_fails decimal decimal Ex.db 7
           [("habit_id", "x"); ("end_date", "soon")] "end_date" "soon");
    [simpl; tauto | reflexivity | discriminate | reflexivity].
Defined.

Lemma contradictory_dates_empty_witness :
  HabitEntryViewSet.get_queryset decimal decimal Ex.db 7
    [("start_date", "105"); ("end_date", "100")] = Ok [].
Proof.
  apply (contradictory_dates_empty decimal decimal Ex.db 7
           [("start_date", "105"); ("end_date", "100")]
           None (Some 105) (Some 100) None).
  - left. reflexivity.
  - exists "105". split; [reflexivity |]. split; [discriminate | reflexivity].
  - exists "100". split; [reflexivity |]. split; [discriminate | reflexivity].
  - left. reflexivity.
  - left. exists 105, 100. split; [reflexivity |]. split; [reflexivity | lia].
Defined.

Lemma entry_lookup_filtered_witness :
  HabitEntryViewSet.get_object decimal decimal Ex.db 7 [("habit_id", "2")]
    (entry_id Ex.e1)
  = if selected 7 (Some 2) None None None Ex.e1 then Ok Ex.e1
    else Raise Http404.
Proof.
  apply (entry_lookup_filtered decimal decimal Ex.db 7 [("habit_id", "2")]
           (Some 2) None None None Ex.e1).
  - exists "2". split; [reflexivity |]. split; [discriminate | reflexivity].
  - left. reflexivity.
  - left. reflexivity.
  - left. reflexivity.
  - simpl. repeat constructor; simpl; intuition discriminate.
  - simpl. auto.
  - reflexivity.
Defined.

Lemma entry_destroy_witness :
  habits (mkDB (habits Ex.db) [Ex.e2; Ex.e3; Ex.e4]) = habits Ex.db ∧
  (∃ e, In e (entries Ex.db) ∧ entry_user e = 7 ∧ entry_id e = 1) ∧
  (∀ r, In r (entries (mkDB (habits Ex.db) [Ex.e2; Ex.e3; Ex.e4]))
        ↔ In r (entries Ex.db) ∧ entry_id r ≠ 1).
Proof.
  apply (entry_destroy decimal decimal Ex.db 7 [] 1). reflexivity.
Defined.

(** ** Entry updates and the habit they name *)

Lemma entry_validation_field_error db user instance partial data h pv msg :
  entry_payload db user partial data (Some h) pv →
  (if negb (habit_user h =? user) then [("habit", own_habits_message)]
   else if bool_decide (habit_archived_at h = None) then []
   else [("habit", archived_message)]) = [("habit", msg)] →
  HabitEntrySerializer.run_validation db user instance partial data
  = Raise (FieldErrors [("habit", msg)]).
Proof.
  intros Hp Herr.
  unfold HabitEntrySerializer.run_validation, to_internal_value.
  rewrite run_fields_eq by apply entry_fields_validation_only.
  rewrite (entry_field_errors db user partial data (Some h) pv Hp).
  now rewrite Herr.
Qed.

(** X18: an update, full or partial, that names a habit is held to the
    checks of a create: it cannot move the entry to a habit of another
    user, nor to an archived habit of the caller. *)
Theorem entry_update_habit_refused (now : Z) (db : DB) (user : Z)
    (partial : bool)
    (instance : HabitEntry) (data : gmap string pyval) (h : Habit)
    (pv : option Z) :
  entry_payload db user partial data (Some h) pv →
  (habit_user h ≠ user →
     HabitEntryViewSet.update now db user partial instance data
     = Raise (FieldErrors [("habit", own_habits_message)])) ∧
  (habit_user h = user → habit_archived_at h ≠ None →
     HabitEntryViewSet.update now db user partial instance data
     = Raise (FieldErrors [("habit", archived_message)])).
Proof.
  intros Hp. unfold HabitEntryViewSet.update. split.
  - intros Hu.
    rewrite (entry_validation_field_error db user (Some instance) partial
               data h pv own_habits_message); [reflexivity | assumption |].
    destruct (Z.eqb_spec (habit_user h) user); [contradiction | reflexivity].
  - intros Hu Ha.
    rewrite (entry_validation_field_error db user (Some instance) partial
               data h pv archived_message); [reflexivity | assumption |].
    rewrite Hu, Z.eqb_refl. simpl. now rewrite bool_decide_eq_false_2.
Qed.

Lemma swim_only_payload :
  entry_payload Ex.db 7 true {[ "habit" := PInt 3 ]} (Some Ex.swim) None.
Proof.
  constructor; try reflexivity.
  - exists 3. split; reflexivity.
  - discriminate.
Defined.

Lemma entry_update_habit_refused_witness :
  HabitEntryViewSet.update 60 Ex.db 7 true Ex.e1 {[ "habit" := PInt 3 ]}
  = Raise (FieldErrors [("habit", own_habits_message)]).
Proof.
  apply (entry_update_habit_refused 60 Ex.db 7 true Ex.e1 {[ "habit" := PInt 3 ]}
           Ex.swim None).
  - exact swim_only_payload.
  - discriminate.
Defined.

(** X19: the archived check belongs to the field [habit] alone. A partial
    update that does not name a habit goes through for an entry whose
    habit is archived, the value being checked against that habit's
    type. *)
Theorem archived_entry_still_editable (now : Z) (db : DB) (user : Z)
    (instance : HabitEntry) (data : gmap string pyval) (h0 : Habit)
    (t v : Z) :
  QuerySet.get_pk (entry_habit instance) (habits db) = Some h0 →
  habit_archived_at h0 = Some t →
  entry_payload db user true data None (Some v) →
  value_rule (habit_type h0) v →
  ∃ e db', HabitEntryViewSet.update now db user true instance data = Ok (e, db') ∧
           entry_value e = v ∧ entry_habit e = entry_habit instance ∧
           entry_user e = entry_user instance.
Proof.
  intros Hh0 _ Hp Hr.
  destruct (entry_validation db user (Some instance) true data None (Some v)
              h0 v Hp)
    as (attrs & Hrun & Hah & Hav & Hau & _).
  { discriminate. }
  { simpl. now rewrite Hh0. }
  { reflexivity. }
  unfold HabitEntryViewSet.update. rewrite Hrun.
  destruct (value_rule_dec (habit_type h0) v); [| contradiction].
  rewrite bind_Ok. unfold HabitEntrySerializer.update, save_entry.
  eexists _, _. split; [reflexivity |]. simpl.
  now rewrite Hah, Hav, Hau.
Qed.

Lemma read_value_payload :
  entry_payload Ex.db 7 true {[ "value" := PInt 45 ]} None (Some 45).
Proof.
  constructor; try reflexivity. discriminate.
Defined.

Lemma archived_entry_still_editable_witness :
  ∃ e db', HabitEntryViewSet.update 60 Ex.db 7 true Ex.e2 {[ "value" := PInt 45 ]}
           = Ok (e, db') ∧
           entry_value e = 45 ∧ entry_habit e = entry_habit Ex.e2 ∧
           entry_user e = entry_user Ex.e2.
Proof.
  apply (archived_entry_still_editable 60 Ex.db 7 Ex.e2 {[ "value" := PInt 45 ]}
           Ex.read 5 45).
  - reflexivity.
  - reflexivity.
  - exact read_value_payload.
  - simpl. lia.
Defined.

(** X20: [validate] hands back the attributes it was given whenever it
    accepts them, and without an instance it has nothing to check when
    the habit or the value is missing: it accepts. *)
Theorem validate_passes_attrs (db : DB) (instance : option HabitEntry)
    (attrs : gmap string pyval) :
  (∀ validated, HabitEntrySerializer.validate db instance attrs = Ok validated →
                validated = attrs) ∧
  (attrs !! "habit" = None ∨ attrs !! "value" = None →
   HabitEntrySerializer.validate db None attrs = Ok attrs).
Proof.
  split.
  - intros validated. apply validate_ok.
  - intros Hmiss. unfold HabitEntrySerializer.validate.
    destruct Hmiss as [-> | ->]; simpl; [reflexivity |].
    now rewrite Bool.andb_false_r.
Qed.

Lemma validate_passes_attrs_witness :
  HabitEntrySerializer.validate Ex.db None {[ "habit" := PHabit Ex.run ]}
  = Ok {[ "habit" := PHabit Ex.run ]}.
Proof.
  apply (validate_passes_attrs Ex.db None {[ "habit" := PHabit Ex.run ]}).
  right. reflexivity.
Defined.
